(** * distancematrix.calculator: a shallow embedding of [Calculator]

    The development follows [src/distancematrix/calculator.py].  Python
    integers are [Z]; Python floats are IEEE-754 binary64 values, written
    with the [spec_float] of the Standard Library (53 bits of precision,
    exponent bound 1024) so that [ceil(ratio * maximum)] rounds the way
    CPython does; NumPy arrays are lists (a two-dimensional array is a list
    of rows); exceptions are values of [exn] carried by a small error type.
    Generators, consumers and the interrupt flag are external to the file:
    they are parameters of the section [Orchestration].

    The module is read with the libraries of its time: a NumPy that still
    has [np.float], and a [random.shuffle] that takes the random function as
    its second argument (Python up to 3.10). *)

From Stdlib Require Import ZArith List Bool Lia Permutation.
From Stdlib.Floats Require Import SpecFloat.
From stdpp Require Import base tactics option list list_numbers.

Local Open Scope Z_scope.

(** ** Exceptions and results *)

(** The exception classes that the module or the interpreter can raise on
    the paths modelled here.  Only the class is kept, not the message.
    [External n] stands for any other exception class raised by a generator
    or a consumer. *)
Inductive exn : Type :=
| RuntimeError
| ValueError
| IndexError
| OverflowError
| ZeroDivisionError
| External (code : nat).

Inductive result (A : Type) : Type :=
| Ok (a : A)
| Raise (e : exn).
Arguments Ok {A} a.
Arguments Raise {A} e.

(** Sequencing: the first exception raised ends the computation. *)
#[global] Instance result_bind : MBind result := fun A B k r =>
  match r with
  | Ok a => k a
  | Raise e => Raise e
  end.
#[global] Instance result_ret : MRet result := fun A a => Ok a.

Definition is_Ok {A : Type} (r : result A) : bool :=
  match r with Ok _ => true | Raise _ => false end.

(** ** Python values and floats *)

Module PyFloat.

Definition prec : Z := 53.
Definition emax : Z := 1024.

Definition zero : spec_float := S754_zero false.
Definition one : spec_float := S754_finite false 4503599627370496 (-52).
Definition nan : spec_float := S754_nan.
Definition inf : spec_float := S754_infinity false.

(** [float(z)] for a Python int: rounded to nearest even, and
    [OverflowError] when the integer is beyond the largest double. *)
Definition of_int (z : Z) : result spec_float :=
  match binary_normalize prec emax z 0 false with
  | S754_infinity _ => Raise OverflowError
  | f => Ok f
  end.

Definition mul (x y : spec_float) : spec_float := SFmul prec emax x y.
Definition ltb (x y : spec_float) : bool := SFltb x y.

(** The mathematical value of a finite float is [num / 2 ^ sh]. *)
Definition numerator (f : spec_float) : Z :=
  match f with
  | S754_finite s m e => cond_Zopp s (Z.pos m * 2 ^ Z.max e 0)
  | _ => 0
  end.

Definition shift (f : spec_float) : Z :=
  match f with
  | S754_finite _ _ e => Z.max (- e) 0
  | _ => 0
  end.

(** [math.ceil]: the least integer not below the float. *)
Definition ceil (f : spec_float) : result Z :=
  match f with
  | S754_nan => Raise ValueError
  | S754_infinity _ => Raise OverflowError
  | _ => Ok (- ((- numerator f) / 2 ^ shift f))
  end.

(** [int(f)]: truncation towards zero. *)
Definition trunc (f : spec_float) : result Z :=
  match f with
  | S754_nan => Raise ValueError
  | S754_infinity _ => Raise OverflowError
  | _ => Ok (Z.quot (numerator f) (2 ^ shift f))
  end.

(** [f * z] for a float and a Python int. *)
Definition mul_int (f : spec_float) (z : Z) : result spec_float :=
  fz ← of_int z; Ok (mul f fz).

End PyFloat.

(** The arguments that [calculate_columns] and [calculate_diagonals] hand to
    [_ratio_to_int]: [type(x) == float], [type(x) == int], or anything else
    ([bool] is not [int] under [type(x) == int]). *)
Inductive pyval : Type :=
| PyNone
| PyInt (z : Z)
| PyFloat (f : spec_float)
| PyBool (b : bool)
| PyStr (s : list Byte.byte).

(** ** The random source: [random.Random(0).random] *)

(** CPython's generator is the Mersenne Twister MT19937; [Random(0)] seeds
    it with the one-word key [[0]].  The state is the 624-word array and the
    index of the next word. *)
Module MT19937.

Definition N : nat := 624.
Definition M : nat := 397.
Definition MATRIX_A : Z := 0x9908b0df.
Definition UPPER_MASK : Z := 0x80000000.
Definition LOWER_MASK : Z := 0x7fffffff.

Definition u32 (z : Z) : Z := z mod 2 ^ 32.

Record state : Type := { mt : list Z; index : nat }.

Definition word (l : list Z) (i : nat) : Z := default 0 (l !! i).

(** [init_genrand]: [mt[i] = 1812433253 * (mt[i-1] ^ (mt[i-1] >> 30)) + i]. *)
Fixpoint init_genrand_from (prev : Z) (i : nat) (count : nat) : list Z :=
  match count with
  | O => []
  | S count' =>
      let x := u32 (1812433253 * Z.lxor prev (Z.shiftr prev 30) + Z.of_nat i) in
      x :: init_genrand_from x (S i) count'
  end.

Definition init_genrand (s : Z) : list Z :=
  u32 s :: init_genrand_from (u32 s) 1 (N - 1).

(** The index pair [(i, j)] after [i++; j++] with their wrap-arounds; the
    wrap of [i] also copies [mt[N-1]] to [mt[0]]. *)
Definition wrap_i (l : list Z) (i : nat) : list Z * nat :=
  if (N <=? S i)%nat then (<[0%nat := word l (N - 1)]> l, 1%nat) else (l, S i).

Fixpoint init_by_array_1 (key : list Z) (k : nat) (l : list Z) (i j : nat)
  : list Z * nat :=
  match k with
  | O => (l, i)
  | S k' =>
      let p := word l (i - 1) in
      let x := u32 (Z.lxor (word l i) (Z.lxor p (Z.shiftr p 30) * 1664525)
                    + word key j + Z.of_nat j) in
      let '(l', i') := wrap_i (<[i := x]> l) i in
      let j' := if (length key <=? S j)%nat then 0%nat else S j in
      init_by_array_1 key k' l' i' j'
  end.

Fixpoint init_by_array_2 (k : nat) (l : list Z) (i : nat) : list Z :=
  match k with
  | O => l
  | S k' =>
      let p := word l (i - 1) in
      let x := u32 (Z.lxor (word l i) (Z.lxor p (Z.shiftr p 30) * 1566083941)
                    - Z.of_nat i) in
      let '(l', i') := wrap_i (<[i := x]> l) i in
      init_by_array_2 k' l' i'
  end.

Definition init_by_array (key : list Z) : state :=
  let l0 := init_genrand 19650218 in
  let '(l1, i) := init_by_array_1 key (Nat.max N (length key)) l0 1 0 in
  let l2 := init_by_array_2 (N - 1) l1 i in
  {| mt := <[0%nat := 0x80000000]> l2; index := N |}.

(** [Random(0)]: the key of the integer 0 is the single word 0. *)
Definition seed0 : state := init_by_array [0].

Definition mix (cur next far : Z) : Z :=
  let y := Z.lor (Z.land cur UPPER_MASK) (Z.land next LOWER_MASK) in
  Z.lxor (Z.lxor far (Z.shiftr y 1)) (if Z.testbit y 0 then MATRIX_A else 0).

(** The regeneration of the [N] words, in place, for [kk] from [from]. *)
Fixpoint twist_from (count : nat) (kk : nat) (l : list Z) : list Z :=
  match count with
  | O => l
  | S count' =>
      let next := word l (if (kk =? N - 1)%nat then 0%nat else S kk) in
      let far := word l (if (kk <? N - M)%nat then (kk + M)%nat
                         else (kk + M - N)%nat) in
      twist_from count' (S kk) (<[kk := mix (word l kk) next far]> l)
  end.

Definition temper (y : Z) : Z :=
  let y := Z.lxor y (Z.shiftr y 11) in
  let y := Z.lxor y (Z.land (u32 (Z.shiftl y 7)) 0x9d2c5680) in
  let y := Z.lxor y (Z.land (u32 (Z.shiftl y 15)) 0xefc60000) in
  Z.lxor y (Z.shiftr y 18).

(** The result is a [uint32_t]. *)
Definition genrand_uint32 (s : state) : Z * state :=
  let s' := if (N <=? index s)%nat
            then {| mt := twist_from N 0 (mt s); index := 0 |} else s in
  (u32 (temper (word (mt s') (index s'))),
   {| mt := mt s'; index := S (index s') |}).

(** [random()]: [(a * 67108864.0 + b) * (1.0 / 9007199254740992.0)] with
    [a] of 27 bits and [b] of 26 bits; the sum is below [2 ^ 53], so every
    step is exact and the result is the double [(a * 2^26 + b) / 2^53]. *)
Definition random (s : state) : spec_float * state :=
  let '(x, s1) := genrand_uint32 s in
  let '(y, s2) := genrand_uint32 s1 in
  let a := Z.shiftr x 5 in
  let b := Z.shiftr y 6 in
  (binary_normalize PyFloat.prec PyFloat.emax (a * 67108864 + b) (-53) false, s2).

End MT19937.

(** ** [random.shuffle(x, random)] *)

(** [x[i], x[j] = x[j], x[i]] on a one-dimensional array; an index beyond
    the array raises [IndexError]. *)
Definition swap (x : list Z) (i j : nat) : result (list Z) :=
  match x !! i, x !! j with
  | Some xi, Some xj => Ok (<[j := xi]> (<[i := xj]> x))
  | _, _ => Raise IndexError
  end.

(** The loop [for i in reversed(range(1, len(x)))]: [i] runs from
    [len(x) - 1] down to 1, drawing [j = int(random() * (i + 1))]. *)
Fixpoint shuffle_from (i : nat) (x : list Z) (rng : MT19937.state)
  : result (list Z) :=
  match i with
  | O => Ok x
  | S i' =>
      let '(r, rng') := MT19937.random rng in
      p ← PyFloat.mul_int r (Z.of_nat i + 1);
      j ← PyFloat.trunc p;
      x' ← swap x i (Z.to_nat j);
      shuffle_from i' x' rng'
  end.

Definition shuffle (x : list Z) (rng : MT19937.state) : result (list Z) :=
  shuffle_from (length x - 1) x rng.

(** [np.arange(a, b)] *)
Definition arange (a b : Z) : list Z := seqZ a (b - a).

(** ** NumPy arrays *)

(** The constructor reads only the shape of [series] and [query], so an
    input array is represented by its shape.  The buffers that the
    calculation methods fill are two-dimensional arrays of floats. *)
Abbreviation ndarray := (list nat) (only parsing).
Abbreviation row := (list spec_float).
Abbreviation matrix := (list (list spec_float)).

(** [np.atleast_2d] *)
Definition atleast_2d (a : ndarray) : ndarray :=
  match a with
  | [] => [1; 1]%nat
  | [n] => [1%nat; n]
  | _ => a
  end.

Definition ndim (a : ndarray) : Z := Z.of_nat (length a).
Definition shape (a : ndarray) (axis : nat) : Z :=
  Z.of_nat (default 0%nat (a !! axis)).

(** [np.full((rows, cols), v)]; a negative dimension is refused. *)
Definition np_full (rows : nat) (cols : Z) (v : spec_float) : result matrix :=
  if cols <? 0 then Raise ValueError
  else Ok (replicate rows (replicate (Z.to_nat cols) v)).

(** Indexing with a Python int: a negative index counts from the end, an
    index out of range raises [IndexError]. *)
Definition py_index (len : nat) (i : Z) : result nat :=
  if (0 <=? i) && (i <? Z.of_nat len) then Ok (Z.to_nat i)
  else if (- Z.of_nat len <=? i) && (i <? 0) then Ok (Z.to_nat (i + Z.of_nat len))
  else Raise IndexError.

Definition py_getitem {A : Type} (l : list A) (i : Z) : result A :=
  k ← py_index (length l) i;
  match l !! k with
  | Some a => Ok a
  | None => Raise IndexError
  end.

(** A bound of a slice [lo:hi] on an axis of length [len]: negative bounds
    count from the end, and the result is clipped to [0, len]. *)
Definition slice_bound (len : nat) (i : Z) : nat :=
  Z.to_nat (Z.min (Z.of_nat len) (Z.max 0 (if i <? 0 then i + Z.of_nat len else i))).

(** [r[lo:hi] = v] for a scalar [v]. *)
Definition fill_slice (lo hi : Z) (v : spec_float) (r : row) : row :=
  let a := slice_bound (length r) lo in
  let b := slice_bound (length r) hi in
  imap (fun i x => if (a <=? i)%nat && (i <? b)%nat then v else x) r.

(** Broadcasting a one-dimensional value to [width] entries: the value must
    have [width] entries or exactly one. *)
Definition broadcast (width : nat) (v : list spec_float) : result row :=
  if (length v =? width)%nat then Ok v
  else match v with
       | [x] => Ok (replicate width x)
       | _ => Raise ValueError
       end.

(** [a[i, :width] = v]: the first [width] entries of row [i] are replaced.
    With [width] the row length this is [a[i, :] = v]. *)
Definition set_row (a : matrix) (i : Z) (width : nat) (v : list spec_float)
  : result matrix :=
  k ← py_index (length a) i;
  match a !! k with
  | Some r =>
      r' ← broadcast (Nat.min width (length r)) v;
      Ok (<[k := r' ++ drop width r]> a)
  | None => Raise IndexError
  end.

(** [a[ids, :width]] with a list of row indices: a new array with the
    selected rows, in the order of [ids]. *)
Fixpoint take_rows (a : matrix) (ids : list Z) (width : nat) : result matrix :=
  match ids with
  | [] => Ok []
  | i :: ids' =>
      r ← py_getitem a i;
      rs ← take_rows a ids' width;
      Ok (take width r :: rs)
  end.

(** ** The ratio resolver *)

Definition _ratio_to_int (ratio_or_result : pyval) (maximum : Z) : result Z :=
  match ratio_or_result with
  | PyFloat f =>
      if PyFloat.ltb f PyFloat.zero || PyFloat.ltb PyFloat.one f
      then Raise ValueError
      else p ← PyFloat.mul_int f maximum; PyFloat.ceil p
  | PyInt z => Ok z
  | _ => Raise RuntimeError
  end.

(** ** The diagonal-length utility *)

(** Modelled from the spec: [distancematrix.util.diag_length] is imported by
    the module but is not part of the sources at hand.  The spec describes
    it as the pure function [(num_query_subseq, num_series_subseq, offset)
    -> count] giving the number of cells on the diagonal [offset] of a grid
    with [h] rows (query) and [w] columns (series); offset 0 is the main
    diagonal, a positive offset shifts towards increasing series index and
    a negative one towards increasing query index.  The cells of diagonal
    [k] are the pairs [(q, s)] with [s - q = k]. *)
Definition diag_length (h w diagonal : Z) : Z :=
  Z.max 0 (Z.min (h + Z.min diagonal 0) (w - Z.max diagonal 0)).

(** ** The calculator *)

(** Generators and consumers are objects of other modules; here an object
    is known by its identity. *)
Abbreviation obj := nat (only parsing).

Record Calculator : Type := {
  _self_join : bool;
  series : ndarray;
  query : ndarray;
  n_dim : Z;
  m : Z;
  num_series_subseq : Z;
  num_query_subseq : Z;
  trivial_match_buffer : Z;
  (* the two [OrderedDict]s, in insertion order *)
  _generators : list (obj * Z);
  _consumers : list (obj * list Z);
  _last_column_calculated : Z;
  _diagonal_calc_order : list Z;
  _diagonal_values_total : Z;
  _diagonal_calc_list_next_index : Z;
  _diagonal_values_calculated : Z
}.

Definition __init__ (m : Z) (series : ndarray) (query : option ndarray)
    (trivial_match_buffer : option Z) : result Calculator :=
  let _self_join := match query with None => true | Some _ => false end in
  let series := atleast_2d series in
  let query := match query with Some q => atleast_2d q | None => series end in
  if negb (ndim series =? 2) then Raise RuntimeError
  else if negb (ndim query =? 2) then Raise RuntimeError
  else
    let n_dim := shape series 0 in
    if negb (n_dim =? shape query 0) then Raise RuntimeError
    else
      let num_series_subseq := shape series 1 - m + 1 in
      let num_query_subseq := shape query 1 - m + 1 in
      tmb ←
        (if _self_join then
           let b := match trivial_match_buffer with
                    | None => m / 2
                    | Some b => b
                    end in
           if negb ((-1 <=? b) && (b <? num_series_subseq))
           then Raise RuntimeError else Ok b
         else Ok (-1));
      let candidates :=
        if negb _self_join
        then arange (- num_query_subseq + 1) num_series_subseq
        else arange (tmb + 1) num_series_subseq in
      let total :=
        if negb _self_join
        then num_query_subseq * num_series_subseq
        else let temp := num_series_subseq - tmb - 1 in
             temp * (temp + 1) / 2 in
      order ← shuffle candidates MT19937.seed0;
      Ok {| _self_join := _self_join;
            series := series;
            query := query;
            n_dim := n_dim;
            m := m;
            num_series_subseq := num_series_subseq;
            num_query_subseq := num_query_subseq;
            trivial_match_buffer := tmb;
            _generators := [];
            _consumers := [];
            _last_column_calculated := -1;
            _diagonal_calc_order := order;
            _diagonal_values_total := total;
            _diagonal_calc_list_next_index := 0;
            _diagonal_values_calculated := 0 |}.

(** Assignments to the attributes that the calculation methods change. *)
Definition set_last_column_calculated (v : Z) (c : Calculator) : Calculator :=
  {| _self_join := _self_join c; series := series c; query := query c;
     n_dim := n_dim c; m := m c;
     num_series_subseq := num_series_subseq c;
     num_query_subseq := num_query_subseq c;
     trivial_match_buffer := trivial_match_buffer c;
     _generators := _generators c; _consumers := _consumers c;
     _last_column_calculated := v;
     _diagonal_calc_order := _diagonal_calc_order c;
     _diagonal_values_total := _diagonal_values_total c;
     _diagonal_calc_list_next_index := _diagonal_calc_list_next_index c;
     _diagonal_values_calculated := _diagonal_values_calculated c |}.

Definition set_diagonal_progress (next_index calculated : Z) (c : Calculator)
  : Calculator :=
  {| _self_join := _self_join c; series := series c; query := query c;
     n_dim := n_dim c; m := m c;
     num_series_subseq := num_series_subseq c;
     num_query_subseq := num_query_subseq c;
     trivial_match_buffer := trivial_match_buffer c;
     _generators := _generators c; _consumers := _consumers c;
     _last_column_calculated := _last_column_calculated c;
     _diagonal_calc_order := _diagonal_calc_order c;
     _diagonal_values_total := _diagonal_values_total c;
     _diagonal_calc_list_next_index := next_index;
     _diagonal_values_calculated := calculated |}.

Definition num_dist_matrix_values (self : Calculator) : Z :=
  num_query_subseq self * num_series_subseq self.

Definition generators (self : Calculator) : list obj := (_generators self).*1.
Definition consumers (self : Calculator) : list obj := (_consumers self).*1.

Definition set_generators (v : list (obj * Z)) (c : Calculator) : Calculator :=
  {| _self_join := _self_join c; series := series c; query := query c;
     n_dim := n_dim c; m := m c;
     num_series_subseq := num_series_subseq c;
     num_query_subseq := num_query_subseq c;
     trivial_match_buffer := trivial_match_buffer c;
     _generators := v; _consumers := _consumers c;
     _last_column_calculated := _last_column_calculated c;
     _diagonal_calc_order := _diagonal_calc_order c;
     _diagonal_values_total := _diagonal_values_total c;
     _diagonal_calc_list_next_index := _diagonal_calc_list_next_index c;
     _diagonal_values_calculated := _diagonal_values_calculated c |}.

Definition set_consumers (v : list (obj * list Z)) (c : Calculator)
  : Calculator :=
  {| _self_join := _self_join c; series := series c; query := query c;
     n_dim := n_dim c; m := m c;
     num_series_subseq := num_series_subseq c;
     num_query_subseq := num_query_subseq c;
     trivial_match_buffer := trivial_match_buffer c;
     _generators := _generators c; _consumers := v;
     _last_column_calculated := _last_column_calculated c;
     _diagonal_calc_order := _diagonal_calc_order c;
     _diagonal_values_total := _diagonal_values_total c;
     _diagonal_calc_list_next_index := _diagonal_calc_list_next_index c;
     _diagonal_values_calculated := _diagonal_values_calculated c |}.

(** [d[k] = v] on an [OrderedDict] whose keys are objects compared by
    identity: a key that is present keeps its place and gets the new
    value, a new key goes to the end. *)
Definition dict_setitem {V : Type} (k : obj) (v : V) (d : list (obj * V))
  : list (obj * V) :=
  if decide (k ∈ d.*1)
  then (fun kv : obj * V => if decide (kv.1 = k) then (k, v) else kv) <$> d
  else d ++ [(k, v)].

(** The row [a[i, :]] of a two-dimensional input, as it is handed to
    [prepare]: the calculator never reads the samples, so the row is known
    by its position and its length. *)
Definition input_row (a : ndarray) (i : Z) : result (nat * Z) :=
  k ← py_index (Z.to_nat (shape a 0)) i; Ok (k, shape a 1).

(** ** Calls to generators and consumers *)

(** What the calculator does to the objects around it, in order.  A
    delivery carries the identity of the array that is handed over (arrays
    are numbered in the order in which the calculator creates them) and its
    contents at the time of the call. *)
Inductive event : Type :=
| CalcColumn (generator : obj) (column : Z)
| ProcessColumn (consumer : obj) (column : Z) (array : nat) (values : matrix)
| CalcDiagonal (generator : obj) (diagonal : Z)
| ProcessDiagonal (consumer : obj) (diagonal : Z) (array : nat) (values : matrix).

(** The state that a call works on: the calculator itself, the private
    state [W] of all generators and consumers, the calls made so far and the
    number of the next array. *)
Record State (W : Type) : Type := {
  self : Calculator;
  world : W;
  trace : list event;
  next_array : nat
}.
Arguments self {W} s.
Arguments world {W} s.
Arguments trace {W} s.
Arguments next_array {W} s.
Arguments Build_State {W} self world trace next_array.

(** ** Sample objects *)

(** Generators and consumers for the examples at the end of the file.  The
    private state of the sample objects is the number of calls they have
    answered.  A sample generator returns a one-element array, which the
    assignment into the buffer broadcasts over the row; a sample consumer
    leaves the array it receives as it is. *)
Module Sample.

Definition calc_column (generator : obj) (column : Z) (w : nat)
  : result (list spec_float) * nat :=
  (Ok [PyFloat.one], S w).

Definition calc_diagonal (generator : obj) (diagonal : Z) (w : nat)
  : result (list spec_float) * nat :=
  (Ok [PyFloat.one], S w).

Definition process_column (consumer : obj) (column : Z) (values : matrix)
    (w : nat) : result unit * nat :=
  (Ok (), S w).

Definition process_diagonal (consumer : obj) (diagonal : Z) (values : matrix)
    (w : nat) : result unit * (matrix * nat) :=
  (Ok (), (values, S w)).


Definition failing_calc_diagonal (generator : obj) (diagonal : Z) (w : nat)
  : result (list spec_float) * nat :=
  if diagonal =? 5 then (Raise (External 7), w) else (Ok [PyFloat.one], S w).

(** A sample generator is bound to the object numbered 100 above it; a
    sample consumer accepts every initialisation. *)
Definition prepare (generator : obj) (m : Z) (series_row : nat * Z)
    (query_row : option (nat * Z)) (w : nat) : result obj * nat :=
  (Ok (100 + generator)%nat, S w).

Definition initialise (consumer : obj) (gen_dims num_query_subseq
    num_series_subseq : Z) (w : nat) : result unit * nat :=
  (Ok (), S w).

Definition set_order (ids : list Z) : list Z := remove_dups ids.

(** [Calculator(4, series)] for a series of length 10, with generator 10
    on dimension 0 and consumer 20 subscribed to generator 0. *)
Definition self_join : Calculator :=
  {| _self_join := true; series := [1; 10]%nat; query := [1; 10]%nat;
     n_dim := 1; m := 4; num_series_subseq := 7; num_query_subseq := 7;
     trivial_match_buffer := 2;
     _generators := [(10%nat, 0)]; _consumers := [(20%nat, [0])];
     _last_column_calculated := -1;
     _diagonal_calc_order := [4; 3; 5; 6];
     _diagonal_values_total := 10;
     _diagonal_calc_list_next_index := 0;
     _diagonal_values_calculated := 0 |}.

(** [Calculator(3, series, query)] for a series of length 8 and a query of
    length 6, with the same generator and consumer. *)
Definition two_series : Calculator :=
  {| _self_join := false; series := [1; 8]%nat; query := [1; 6]%nat;
     n_dim := 1; m := 3; num_series_subseq := 6; num_query_subseq := 4;
     trivial_match_buffer := -1;
     _generators := [(10%nat, 0)]; _consumers := [(20%nat, [0])];
     _last_column_calculated := -1;
     _diagonal_calc_order := [0; -3; 1; 2; 5; -2; -1; 3; 4];
     _diagonal_values_total := 24;
     _diagonal_calc_list_next_index := 0;
     _diagonal_values_calculated := 0 |}.

(** [Calculator(4, series, trivial_match_buffer=-1)] for a series of
    length 10, with the same generator and consumer. *)
Definition self_join_unbuffered : Calculator :=
  {| _self_join := true; series := [1; 10]%nat; query := [1; 10]%nat;
     n_dim := 1; m := 4; num_series_subseq := 7; num_query_subseq := 7;
     trivial_match_buffer := -1;
     _generators := [(10%nat, 0)]; _consumers := [(20%nat, [0])];
     _last_column_calculated := -1;
     _diagonal_calc_order := [6; 0; 3; 1; 2; 4; 5];
     _diagonal_values_total := 28;
     _diagonal_calc_list_next_index := 0;
     _diagonal_values_calculated := 0 |}.

(** The state before the first call. *)
Definition start (c : Calculator) : State nat :=
  {| self := c; world := 0%nat; trace := []; next_array := 0 |}.

End Sample.

Section Orchestration.

Variable W : Type.

(** The methods of the external interfaces.  Each may change the state of
    the objects and may raise.  A consumer receives an array that it could
    write to; [process_diagonal] therefore also tells what the array holds
    after the call. *)
Variable calc_column : obj -> Z -> W -> result (list spec_float) * W.
Variable calc_diagonal : obj -> Z -> W -> result (list spec_float) * W.
Variable process_column : obj -> Z -> matrix -> W -> result unit * W.
Variable process_diagonal : obj -> Z -> matrix -> W -> result unit * (matrix * W).

(** The order in which the interpreter iterates over [set(ids)]. *)
Variable set_order : list Z -> list Z.

(** A computation reads and changes the state and returns or raises; the
    state at the time of the exception is kept. *)
Definition M (A : Type) : Type := State W -> result A * State W.

#[local] Instance M_ret : MRet M := fun A a s => (Ok a, s).
#[local] Instance M_bind : MBind M := fun A B k c s =>
  match c s with
  | (Ok a, s') => k a s'
  | (Raise e, s') => (Raise e, s')
  end.

Definition lift {A : Type} (r : result A) : M A := fun s => (r, s).
Definition get_self : M Calculator := fun s => (Ok (self s), s).

Definition set_world (w : W) (s : State W) : State W :=
  {| self := self s; world := w; trace := trace s; next_array := next_array s |}.
Definition log (e : event) (s : State W) : State W :=
  {| self := self s; world := world s; trace := trace s ++ [e];
     next_array := next_array s |}.
Definition set_self (c : Calculator) (s : State W) : State W :=
  {| self := c; world := world s; trace := trace s; next_array := next_array s |}.
Definition modify_self (f : Calculator -> Calculator) : M unit := fun s =>
  (Ok (), set_self (f (self s)) s).
Definition new_array : M nat := fun s =>
  (Ok (next_array s),
   {| self := self s; world := world s; trace := trace s;
      next_array := S (next_array s) |}).

Definition call_calc_column (generator : obj) (column : Z) : M (list spec_float) :=
  fun s =>
    let '(r, w) := calc_column generator column (world s) in
    (r, set_world w (log (CalcColumn generator column) s)).

Definition call_calc_diagonal (generator : obj) (diagonal : Z) : M (list spec_float) :=
  fun s =>
    let '(r, w) := calc_diagonal generator diagonal (world s) in
    (r, set_world w (log (CalcDiagonal generator diagonal) s)).

Definition call_process_column (consumer : obj) (column : Z) (array : nat)
    (values : matrix) : M unit :=
  fun s =>
    let '(r, w) := process_column consumer column values (world s) in
    (r, set_world w (log (ProcessColumn consumer column array values) s)).

(** Returns the contents of the array after the call. *)
Definition call_process_diagonal (consumer : obj) (diagonal : Z) (array : nat)
    (values : matrix) : M matrix :=
  fun s =>
    let '(r, (values', w)) := process_diagonal consumer diagonal values (world s) in
    (_ ← r; Ok values',
     set_world w (log (ProcessDiagonal consumer diagonal array values) s)).

(** *** Registration *)

Section Registration.

(** The methods that registration calls: [generator.prepare(m, series_row)]
    or [generator.prepare(m, series_row, query_row)], which returns the
    bound generator, and [consumer.initialise(dims, query_subseq,
    series_subseq)]. *)
Variable prepare :
  obj -> Z -> nat * Z -> option (nat * Z) -> W -> result obj * W.
Variable initialise : obj -> Z -> Z -> Z -> W -> result unit * W.

(** The calls of registration change the state of the objects; the trace
    keeps the calls of the calculation methods only. *)
Definition call_prepare (generator : obj) (m : Z) (series_row : nat * Z)
    (query_row : option (nat * Z)) : M obj :=
  fun s =>
    let '(r, w) := prepare generator m series_row query_row (world s) in
    (r, set_world w s).

Definition call_initialise (consumer : obj) (gen_dims nq ns : Z) : M unit :=
  fun s =>
    let '(r, w) := initialise consumer gen_dims nq ns (world s) in
    (r, set_world w s).

Definition add_generator (input_dim : Z) (generator : obj) : M unit :=
  c ← get_self;
  if (input_dim <? 0) || (n_dim c <=? input_dim) then lift (Raise ValueError)
  else
    series_row ← lift (input_row (series c) input_dim);
    query_row ← (if negb (_self_join c)
                 then q ← lift (input_row (query c) input_dim); mret (Some q)
                 else mret None);
    bound_gen ← call_prepare generator (m c) series_row query_row;
    modify_self (fun c =>
      set_generators (dict_setitem bound_gen input_dim (_generators c)) c).

(** The list of ids is stored as it is given: no id is checked against
    the generators. *)
Definition add_consumer (generator_ids : list Z) (consumer : obj) : M unit :=
  c ← get_self;
  let gen_dims := Z.of_nat (length generator_ids) in
  let q := shape (query c) 1 in
  let n := shape (series c) 1 in
  _ ← call_initialise consumer gen_dims (q - m c + 1) (n - m c + 1);
  modify_self (fun c =>
    set_consumers (dict_setitem consumer generator_ids (_consumers c)) c).

End Registration.

(** *** The calculation methods *)

(** [list(set(id for id_list in self._consumers.values() for id in id_list))] *)
Definition generators_needed_ids (c : Calculator) : list Z :=
  set_order (mjoin (_consumers c).*2).

(** *** [calculate_columns] *)

(** [for generator_id in generators_needed_ids:
       column_dists[generator_id, :] = generators[generator_id].calc_column(current_column)] *)
Fixpoint fill_columns (gens : list obj) (ids : list Z) (current_column : Z)
    (width : nat) (column_dists : matrix) : M matrix :=
  match ids with
  | [] => mret column_dists
  | generator_id :: ids' =>
      generator ← lift (py_getitem gens generator_id);
      v ← call_calc_column generator current_column;
      dists ← lift (set_row column_dists generator_id width v);
      fill_columns gens ids' current_column width dists
  end.

(** [if self.trivial_match_buffer >= 0: column_dists[:, start:end] = np.inf] *)
Definition mask_trivial_matches (c : Calculator) (current_column : Z)
    (column_dists : matrix) : matrix :=
  if 0 <=? trivial_match_buffer c then
    let trivial_match_start := Z.max 0 (current_column - trivial_match_buffer c) in
    let trivial_match_end := current_column + trivial_match_buffer c + 1 in
    fill_slice trivial_match_start trivial_match_end PyFloat.inf <$> column_dists
  else column_dists.

(** [for consumer, generator_ids in self._consumers.items():
       consumer.process_column(current_column, column_dists[generator_ids, :])] *)
Fixpoint deliver_column (cons : list (obj * list Z)) (current_column : Z)
    (width : nat) (column_dists : matrix) : M unit :=
  match cons with
  | [] => mret ()
  | (consumer, generator_ids) :: cons' =>
      values ← lift (take_rows column_dists generator_ids width);
      array ← new_array;
      _ ← call_process_column consumer current_column array values;
      deliver_column cons' current_column width column_dists
  end.

(** One pass through the body of the [while] loop: the column is
    computed, masked and delivered, and only then is the mark advanced. *)
Definition column_step (gens : list obj) (needed : list Z)
    (current_column : Z) (column_dists : matrix) : M matrix :=
  c ← get_self;
  let width := Z.to_nat (num_query_subseq c) in
  dists ← fill_columns gens needed current_column width column_dists;
  let dists := mask_trivial_matches c current_column dists in
  _ ← deliver_column (_consumers c) current_column width dists;
  _ ← modify_self (fun c =>
        set_last_column_calculated
          (Z.max current_column (_last_column_calculated c)) c);
  mret dists.

(** [while current_column < upto and not is_interrupted(): ...]; the
    interrupt flag is read only when the first test holds.  [polls] counts
    the reads of the flag in this call, and the buffer is handed from one
    pass to the next.  The progress text is not
    modelled: its divisions are by [columns_calculated >= 1] and by
    [upto + 1 - start >= 2], and it changes no state. *)
Fixpoint columns_loop (fuel : nat) (gens : list obj) (needed : list Z)
    (current_column upto : Z) (is_interrupted : nat -> bool) (polls : nat)
    (column_dists : matrix) : M matrix :=
  match fuel with
  | O => mret column_dists
  | S fuel' =>
      if (current_column <? upto) && negb (is_interrupted polls) then
        dists ← column_step gens needed current_column column_dists;
        columns_loop fuel' gens needed (current_column + 1) upto
          is_interrupted (S polls) dists
      else mret column_dists
  end.

Definition calculate_columns (start upto : pyval) (print_progress : bool)
    (is_interrupted : nat -> bool) : M unit :=
  c ← get_self;
  let start := match start with
               | PyNone => PyInt (_last_column_calculated c + 1)
               | _ => start
               end in
  start ← lift (_ratio_to_int start (num_series_subseq c));
  upto ← lift (_ratio_to_int upto (num_series_subseq c));
  let gens := generators c in
  let needed := generators_needed_ids c in
  column_dists ← lift (np_full (length (_generators c)) (num_query_subseq c)
                         PyFloat.nan);
  _ ← columns_loop (Z.to_nat (upto - start)) gens needed start upto
        is_interrupted 0 column_dists;
  mret ().

(** *** [calculate_diagonals] *)

(** [for generator_id in generators_needed_ids:
       diagonal_values[generator_id, :] = generators[generator_id].calc_diagonal(diagonal)]
    where [diagonal_values] is the view [diag_dists[:, :width]]. *)
Fixpoint fill_diagonal (gens : list obj) (ids : list Z) (diagonal : Z)
    (width : nat) (diag_dists : matrix) : M matrix :=
  match ids with
  | [] => mret diag_dists
  | generator_id :: ids' =>
      generator ← lift (py_getitem gens generator_id);
      v ← call_calc_diagonal generator diagonal;
      dists ← lift (set_row diag_dists generator_id width v);
      fill_diagonal gens ids' diagonal width dists
  end.

(** [for consumer, generator_ids in self._consumers.items():
       values_to_consume = diagonal_values[generator_ids, :]
       consumer.process_diagonal(diagonal, values_to_consume)
       if self._self_join:
           consumer.process_diagonal(-diagonal, values_to_consume)]
    The second call receives the very array of the first. *)
Fixpoint deliver_diagonal (self_join : bool) (cons : list (obj * list Z))
    (diagonal : Z) (width : nat) (diag_dists : matrix) : M unit :=
  match cons with
  | [] => mret ()
  | (consumer, generator_ids) :: cons' =>
      values_to_consume ← lift (take_rows diag_dists generator_ids width);
      array ← new_array;
      values ← call_process_diagonal consumer diagonal array values_to_consume;
      _ ← (if self_join
           then call_process_diagonal consumer (- diagonal) array values
           else mret values);
      deliver_diagonal self_join cons' diagonal width diag_dists
  end.

(** The divisions of the progress report, which follow the update of the
    counters: by [values_needed], by [self._diagonal_values_total] and by
    [self._diagonal_values_calculated]. *)
Definition report_progress (print_progress : bool) (values_needed : Z)
    (c : Calculator) : result unit :=
  if print_progress
     && ((values_needed =? 0) || (_diagonal_values_total c =? 0)
         || (_diagonal_values_calculated c =? 0))
  then Raise ZeroDivisionError else Ok ().

(** One pass through the body of the [while] loop. *)
Definition diagonal_step (gens : list obj) (needed : list Z)
    (max_diagonal_length : Z) (values_needed : Z) (print_progress : bool)
    (diag_dists : matrix) : M matrix :=
  c ← get_self;
  diagonal ← lift (py_getitem (_diagonal_calc_order c)
                     (_diagonal_calc_list_next_index c));
  let diagonal_length :=
    diag_length (num_query_subseq c) (num_series_subseq c) diagonal in
  let width := slice_bound (Z.to_nat max_diagonal_length) diagonal_length in
  dists ← fill_diagonal gens needed diagonal width diag_dists;
  _ ← deliver_diagonal (_self_join c) (_consumers c) diagonal width dists;
  _ ← modify_self (fun c =>
        set_diagonal_progress
          (_diagonal_calc_list_next_index c + 1)
          (_diagonal_values_calculated c + diagonal_length) c);
  c' ← get_self;
  _ ← lift (report_progress print_progress values_needed c');
  mret dists.

(** [while self._diagonal_values_calculated < values_needed
          and not is_interrupted(): ...] *)
Fixpoint diagonals_loop (fuel : nat) (gens : list obj) (needed : list Z)
    (max_diagonal_length : Z) (values_needed : Z) (print_progress : bool)
    (is_interrupted : nat -> bool) (polls : nat) (diag_dists : matrix)
  : M matrix :=
  match fuel with
  | O => mret diag_dists
  | S fuel' =>
      c ← get_self;
      if (_diagonal_values_calculated c <? values_needed)
         && negb (is_interrupted polls) then
        dists ← diagonal_step gens needed max_diagonal_length values_needed
                  print_progress diag_dists;
        diagonals_loop fuel' gens needed max_diagonal_length values_needed
          print_progress is_interrupted (S polls) dists
      else mret diag_dists
  end.

(** Every pass moves the cursor one place along the order and a cursor
    beyond the order raises [IndexError], so the loop makes at most this
    many passes before it stops or raises. *)
Definition diagonal_passes (c : Calculator) : nat :=
  S (Z.to_nat (Z.of_nat (length (_diagonal_calc_order c))
               - _diagonal_calc_list_next_index c)).

Definition calculate_diagonals (partial : pyval) (print_progress : bool)
    (is_interrupted : nat -> bool) : M unit :=
  c ← get_self;
  let gens := generators c in
  let needed := generators_needed_ids c in
  let max_diagonal_length :=
    Z.min (num_query_subseq c) (num_series_subseq c) in
  diag_dists ← lift (np_full (length (_generators c)) max_diagonal_length
                       PyFloat.nan);
  values_needed ← lift (_ratio_to_int partial (_diagonal_values_total c));
  _ ← diagonals_loop (diagonal_passes c) gens needed max_diagonal_length
        values_needed print_progress is_interrupted 0 diag_dists;
  mret ().

(** *** [_find_invalid_subseq_idxs] *)

(** [range(max(min_result_idx, invalid_idx - m + 1,
                min(invalid_idx + m, max_result_idx)))]: the three-argument
    [max] is the stop of a range that starts at 0. *)
Definition affected_subsequences (m min_result_idx max_result_idx
    invalid_idx : Z) : list Z :=
  seqZ 0 (Z.max (Z.max min_result_idx (invalid_idx - m + 1))
            (Z.min (invalid_idx + m) max_result_idx)).

(** The loop over the rows [(dim, invalid_idx)] of
    [np.transpose(invalid_data_idxs)].  A set is kept as the sequence of
    its insertions; [result_set[dim]] is indexed as a Python list. *)
Fixpoint mark_invalid (rows : list (Z * Z)) (m min_result_idx
    max_result_idx : Z) (result_set : list (list Z)) : result (list (list Z)) :=
  match rows with
  | [] => Ok result_set
  | (dim, invalid_idx) :: rows' =>
      k ← py_index (length result_set) dim;
      match result_set !! k with
      | Some s =>
          mark_invalid rows' m min_result_idx max_result_idx
            (<[k := s ++ affected_subsequences m min_result_idx
                       max_result_idx invalid_idx]> result_set)
      | None => Raise IndexError
      end
  end.

(** [invalid_data_idxs] is the output of [np.nonzero] on a two-dimensional
    array, two index arrays of the same length; it is given here by the
    rows of its transpose.  Each returned array lists a set in the order
    of the interpreter. *)
Definition _find_invalid_subseq_idxs (invalid_data_idxs : list (Z * Z))
    (dims m min_result_idx max_result_idx : Z) : result (list (list Z)) :=
  match mark_invalid invalid_data_idxs m min_result_idx max_result_idx
          (replicate (Z.to_nat dims) []) with
  | Ok result_set => Ok (set_order <$> result_set)
  | Raise e => Raise e
  end.

(** ** Properties *)

(** *** Sequencing *)

Lemma bind_unfold {A B : Type} (c : M A) (k : A -> M B) (s : State W) :
  (c ≫= k) s =
  match c s with
  | (Ok a, s') => k a s'
  | (Raise e, s') => (Raise e, s')
  end.
Proof. reflexivity. Qed.

Lemma bind_Ok_inv {A B : Type} (c : M A) (k : A -> M B) s b s2 :
  (c ≫= k) s = (Ok b, s2) ->
  exists a s1, c s = (Ok a, s1) /\ k a s1 = (Ok b, s2).
Proof.
  rewrite bind_unfold. destruct (c s) as [[a|e] s1] eqn:E; [eauto | discriminate].
Qed.

(** A relation between the state before and the state after that every
    step of a computation keeps. *)
Definition keeps {A : Type} (R : State W -> State W -> Prop) (c : M A) : Prop :=
  forall s, R s (c s).2.

Section Keeps.
Variable R : State W -> State W -> Prop.
Hypothesis R_refl : forall s, R s s.
Hypothesis R_trans : forall s1 s2 s3, R s1 s2 -> R s2 s3 -> R s1 s3.

Lemma keeps_ret {A : Type} (a : A) : keeps R (mret a).
Proof. intros s. apply R_refl. Qed.

Lemma keeps_lift {A : Type} (r : result A) : keeps R (lift r).
Proof. intros s. apply R_refl. Qed.

Lemma keeps_get_self : keeps R get_self.
Proof. intros s. apply R_refl. Qed.

Lemma keeps_bind {A B : Type} (c : M A) (k : A -> M B) :
  keeps R c -> (forall a, keeps R (k a)) -> keeps R (c ≫= k).
Proof.
  intros Hc Hk s. rewrite bind_unfold.
  specialize (Hc s). destruct (c s) as [[a|e] s1]; simpl in *; [|done].
  eapply R_trans; [exact Hc | apply Hk].
Qed.
End Keeps.

(** *** Binary64 arithmetic *)

Lemma iter_pos_nat {A : Type} (f : A -> A) (n : positive) (x : A) :
  SpecFloat.iter_pos f n x = Nat.iter (Pos.to_nat n) f x.
Proof.
  revert x. induction n as [n IH|n IH|]; intros x; cbn [SpecFloat.iter_pos].
  - rewrite !IH, Pos2Nat.inj_xI.
    replace (S (2 * Pos.to_nat n)) with (Pos.to_nat n + (Pos.to_nat n + 1))%nat
      by lia.
    by rewrite !Nat.iter_add.
  - rewrite !IH, Pos2Nat.inj_xO.
    replace (2 * Pos.to_nat n)%nat with (Pos.to_nat n + Pos.to_nat n)%nat by lia.
    by rewrite Nat.iter_add.
  - reflexivity.
Qed.

Lemma shr_1_even (q : positive) :
  shr_1 {| shr_m := Z.pos q~0; shr_r := false; shr_s := false |}
  = {| shr_m := Z.pos q; shr_r := false; shr_s := false |}.
Proof. reflexivity. Qed.

Lemma iter_shr_1_shifted (d : nat) (q : positive) :
  Nat.iter d shr_1
    {| shr_m := Z.pos (Nat.iter d xO q); shr_r := false; shr_s := false |}
  = {| shr_m := Z.pos q; shr_r := false; shr_s := false |}.
Proof.
  induction d as [|d IH]; [done|].
  rewrite Nat.iter_succ_r. simpl. exact IH.
Qed.

Lemma digits2_pos_shifted (d : nat) (q : positive) :
  Z.pos (digits2_pos (Nat.iter d xO q)) = Z.pos (digits2_pos q) + Z.of_nat d.
Proof.
  induction d as [|d IH]; [simpl; lia|].
  rewrite Nat.iter_succ. cbn [digits2_pos]. rewrite Pos2Z.inj_succ, IH. lia.
Qed.

Lemma shifted_value (d : nat) (q : positive) :
  Z.pos (Nat.iter d xO q) = Z.pos q * 2 ^ Z.of_nat d.
Proof.
  induction d as [|d IH]; [simpl; lia|].
  rewrite Nat.iter_succ. rewrite (Pos2Z.inj_xO (Nat.iter d xO q)), IH.
  rewrite Nat2Z.inj_succ, Z.pow_succ_r by lia. lia.
Qed.

Lemma digits2_pos_bound (p : positive) :
  2 ^ (Z.pos (digits2_pos p) - 1) <= Z.pos p < 2 ^ Z.pos (digits2_pos p).
Proof.
  induction p as [p IH|p IH|]; cbn [digits2_pos].
  - rewrite Pos2Z.inj_succ, (Pos2Z.inj_xI p).
    replace (Z.succ (Z.pos (digits2_pos p)) - 1)
      with (Z.succ (Z.pos (digits2_pos p) - 1)) by lia.
    rewrite !Z.pow_succ_r by lia. revert IH.
    generalize (2 ^ (Z.pos (digits2_pos p) - 1)) (2 ^ Z.pos (digits2_pos p)).
    intros; lia.
  - rewrite Pos2Z.inj_succ, (Pos2Z.inj_xO p).
    replace (Z.succ (Z.pos (digits2_pos p)) - 1)
      with (Z.succ (Z.pos (digits2_pos p) - 1)) by lia.
    rewrite !Z.pow_succ_r by lia. revert IH.
    generalize (2 ^ (Z.pos (digits2_pos p) - 1)) (2 ^ Z.pos (digits2_pos p)).
    intros. lia.
  - simpl. lia.
Qed.

Lemma fexp_53 (e : Z) : -1074 <= e -> fexp 53 1024 (53 + e) = e.
Proof. unfold fexp, emin. lia. Qed.

Lemma binary_round_aux_exact (q : positive) (e : Z) :
  Z.pos (digits2_pos q) = 53 -> -1074 <= e <= 971 ->
  binary_round_aux 53 1024 false (Z.pos q) e loc_Exact = S754_finite false q e.
Proof.
  intros Hd He. unfold binary_round_aux, shr_fexp.
  cbn [Zdigits2]. rewrite Hd, (fexp_53 e) by lia. rewrite Z.sub_diag.
  cbn [shr shr_record_of_loc shr_m loc_of_shr_record round_nearest_even Zdigits2].
  rewrite Hd, (fexp_53 e) by lia. rewrite Z.sub_diag.
  cbn [shr shr_record_of_loc shr_m].
  by replace (e <=? 1024 - 53) with true by (symmetry; apply Z.leb_le; lia).
Qed.

Lemma binary_round_aux_shifted (q : positive) (e : Z) (d : nat) :
  Z.pos (digits2_pos q) = 53 -> -1074 <= e <= 971 -> (0 < d)%nat ->
  binary_round_aux 53 1024 false (Z.pos (Nat.iter d xO q)) (e - Z.of_nat d)
    loc_Exact
  = S754_finite false q e.
Proof.
  intros Hd He Hpos. unfold binary_round_aux. unfold shr_fexp at 1.
  cbn [Zdigits2]. rewrite digits2_pos_shifted, Hd.
  replace (53 + Z.of_nat d + (e - Z.of_nat d)) with (53 + e) by lia.
  rewrite (fexp_53 e) by lia.
  replace (e - (e - Z.of_nat d)) with (Z.pos (Pos.of_nat d)) by lia.
  cbn [shr shr_record_of_loc]. rewrite iter_pos_nat.
  rewrite Nat2Pos.id by lia. rewrite iter_shr_1_shifted.
  cbn [shr_m loc_of_shr_record round_nearest_even].
  replace (e - Z.of_nat d + Z.pos (Pos.of_nat d)) with e by lia.
  unfold shr_fexp. cbn [Zdigits2]. rewrite Hd, (fexp_53 e) by lia.
  rewrite Z.sub_diag. cbn [shr shr_record_of_loc shr_m].
  by replace (e <=? 1024 - 53) with true by (symmetry; apply Z.leb_le; lia).
Qed.

(** A positive integer below [2 ^ 53] is a double, and [1.0] times it is
    the same double. *)
Lemma of_int_exact (p : positive) :
  Z.pos p < 2 ^ 53 ->
  exists q e,
    PyFloat.of_int (Z.pos p) = Ok (S754_finite false q e)
    /\ PyFloat.mul PyFloat.one (S754_finite false q e) = S754_finite false q e
    /\ -52 <= e <= 0 /\ Z.pos q = Z.pos p * 2 ^ (- e).
Proof.
  intros Hp. pose proof (digits2_pos_bound p) as [Hlo _].
  set (n := Z.pos (digits2_pos p)) in *.
  assert (1 <= n <= 53) as Hn.
  { split; [unfold n; lia|].
    destruct (decide (n <= 53)) as [|Hgt]; [done|]. exfalso.
    assert (2 ^ 53 <= 2 ^ (n - 1)) by (apply Z.pow_le_mono_r; lia). lia. }
  set (d := Z.to_nat (53 - n)).
  exists (Nat.iter d xO p), (n - 53).
  assert (Z.pos (digits2_pos (Nat.iter d xO p)) = 53) as Hd
    by (rewrite digits2_pos_shifted; fold n; lia).
  split; [|split; [|split]].
  - unfold PyFloat.of_int, binary_normalize, binary_round.
    assert (shl_align p 0 (fexp PyFloat.prec PyFloat.emax
                             (Z.pos (digits2_pos p) + 0))
            = (Nat.iter d xO p, n - 53)) as ->.
    { unfold shl_align, fexp, emin, PyFloat.prec, PyFloat.emax. fold n.
      replace (Z.max (n + 0 - 53) (3 - 1024 - 53)) with (n - 53) by lia.
      rewrite Z.sub_0_r.
      destruct (decide (n = 53)) as [E|E].
      - assert (d = 0%nat) as -> by lia. by rewrite E.
      - assert (n - 53 = Z.neg (Pos.of_nat d)) as -> by lia.
        rewrite Pos2Nat.inj_iter, Nat2Pos.id by lia. reflexivity. }
    unfold PyFloat.prec, PyFloat.emax.
    by rewrite binary_round_aux_exact by (done || lia).
  - unfold PyFloat.mul, PyFloat.one, SFmul, PyFloat.prec, PyFloat.emax.
    change (Z.pos (4503599627370496 * Nat.iter d xO p))
      with (Z.pos (Nat.iter 52 xO (Nat.iter d xO p))).
    replace (-52 + (n - 53)) with (n - 53 - Z.of_nat 52) by lia.
    apply binary_round_aux_shifted; [done|lia|lia].
  - lia.
  - rewrite shifted_value. f_equal. f_equal. lia.
Qed.

Lemma shr_1_half (r : shr_record) :
  0 <= shr_m r ->
  0 <= shr_m (shr_1 r)
  /\ shr_m r = 2 * shr_m (shr_1 r) + (if shr_r (shr_1 r) then 1 else 0).
Proof.
  destruct r as [m r s]. cbn [shr_m]. intros Hm.
  destruct m as [|[p|p|]|p]; cbn; lia.
Qed.

Lemma iter_shr_1_floor (s : nat) (r : shr_record) :
  0 <= shr_m r ->
  let r' := Nat.iter s shr_1 r in
  0 <= shr_m r'
  /\ exists rem, shr_m r = shr_m r' * 2 ^ Z.of_nat s + rem
                 /\ 0 <= rem < 2 ^ Z.of_nat s
                 /\ (shr_r r' = true -> (0 < s)%nat -> 2 ^ Z.of_nat s <= 2 * rem)
                 /\ (shr_r r' = false -> (0 < s)%nat -> 2 * rem < 2 ^ Z.of_nat s).
Proof.
  intros Hm. induction s as [|s IH]; cbn zeta.
  - split; [done|]. exists 0. cbn. split; [lia|]. split; [lia|]. split; intros; lia.
  - cbn zeta in IH. destruct IH as [Hm' (rem & E & Hrem & Hr & Hr')].
    rewrite Nat.iter_succ.
    destruct (shr_1_half (Nat.iter s shr_1 r) Hm') as [Hm'' E'].
    split; [done|].
    rewrite Nat2Z.inj_succ, Z.pow_succ_r by lia.
    set (P := 2 ^ Z.of_nat s) in *.
    exists ((if shr_r (shr_1 (Nat.iter s shr_1 r)) then 1 else 0) * P + rem).
    destruct (shr_r (shr_1 (Nat.iter s shr_1 r))); (split; [|split; [|split]]);
      try (intros; lia); try nia.
Qed.

Lemma digits2_pos_53 (p : positive) :
  2 ^ 52 <= Z.pos p < 2 ^ 53 -> Z.pos (digits2_pos p) = 53.
Proof.
  intros Hp. pose proof (digits2_pos_bound p) as [Hlo Hhi].
  set (n := Z.pos (digits2_pos p)) in *.
  destruct (decide (n <= 52)) as [Hn|Hn].
  { assert (2 ^ n <= 2 ^ 52) by (apply Z.pow_le_mono_r; lia). lia. }
  destruct (decide (54 <= n)) as [Hn'|Hn']; [|lia].
  assert (2 ^ 53 <= 2 ^ (n - 1)) by (apply Z.pow_le_mono_r; lia). lia.
Qed.

Lemma round_nearest_even_bounds (r : shr_record) :
  let M := round_nearest_even (shr_m r) (loc_of_shr_record r) in
  shr_m r <= M <= shr_m r + (if shr_r r then 1 else 0).
Proof.
  destruct r as [m [|] [|]]; cbn; try lia. destruct (Z.even m); lia.
Qed.

(** Rounding a product of more than 53 bits to nearest: the result is at
    most half a unit in the last place above the exact value. *)
Lemma binary_round_aux_near (X : positive) (e : Z) :
  let d := Z.pos (digits2_pos X) in
  54 <= d -> -1074 <= d + e - 53 -> d + e - 53 < 971 ->
  exists m' e',
    binary_round_aux 53 1024 false (Z.pos X) e loc_Exact
    = S754_finite false m' e'
    /\ e < e'
    /\ 2 * (Z.pos m' * 2 ^ (e' - e)) <= 2 * Z.pos X + 2 ^ (d - 53).
Proof.
  intros d Hd Hlo Hhi. pose proof (digits2_pos_bound X) as HX. fold d in HX.
  unfold binary_round_aux. unfold shr_fexp at 1. cbn [Zdigits2]. fold d.
  replace (d + e) with (53 + (d + e - 53)) by lia.
  rewrite (fexp_53 (d + e - 53)) by lia.
  set (s := Z.to_nat (d - 53)).
  replace (d + e - 53 - e) with (Z.pos (Pos.of_nat s)) by lia.
  cbn [shr shr_record_of_loc]. rewrite iter_pos_nat, Nat2Pos.id by lia.
  destruct (iter_shr_1_floor s
              {| shr_m := Z.pos X; shr_r := false; shr_s := false |})
    as [Hm (rem & E & Hrem & Hr & Hr')]; [cbn; lia|].
  cbn [shr_m] in E.
  set (r' := Nat.iter s shr_1 _) in *.
  pose proof (round_nearest_even_bounds r') as HM. cbn zeta in HM.
  set (M := round_nearest_even (shr_m r') (loc_of_shr_record r')) in *.
  replace (e + Z.pos (Pos.of_nat s)) with (d + e - 53) by lia.
  assert (2 ^ d = 2 ^ 53 * 2 ^ Z.of_nat s) as Ed
    by (rewrite <- Z.pow_add_r by lia; f_equal; lia).
  assert (2 ^ (d - 1) = 2 ^ 52 * 2 ^ Z.of_nat s) as Ed'
    by (rewrite <- Z.pow_add_r by lia; f_equal; lia).
  assert (2 ^ (d - 53) = 2 ^ Z.of_nat s) as Es by (f_equal; lia).
  rewrite Ed, Ed' in HX. rewrite Es.
  assert (0 < 2 ^ Z.of_nat s) as HP by (apply Z.pow_pos_nonneg; lia).
  set (P := 2 ^ Z.of_nat s) in *.
  assert (2 ^ 52 <= shr_m r' < 2 ^ 53) as Hm1.
  { generalize dependent (shr_m r'). intros m1. intros. nia. }
  assert (2 * (M * P) <= 2 * Z.pos X + P) as Hnear.
  { destruct (shr_r r') eqn:Er.
    - specialize (Hr eq_refl ltac:(lia)). nia.
    - nia. }
  assert (2 ^ 52 <= M <= 2 ^ 53) as HM' by (destruct (shr_r r'); lia).
  destruct M as [|pm|pm] eqn:EM; [lia| |lia].
  destruct (decide (Z.pos pm < 2 ^ 53)) as [Hlt|Hge].
  - exists pm, (d + e - 53).
    unfold shr_fexp. cbn [Zdigits2].
    rewrite (digits2_pos_53 pm) by lia.
    rewrite (fexp_53 (d + e - 53)) by lia. rewrite Z.sub_diag.
    cbn [shr shr_record_of_loc shr_m].
    replace (d + e - 53 <=? 1024 - 53) with true
      by (symmetry; apply Z.leb_le; lia).
    split; [done|]. split; [lia|].
    replace (d + e - 53 - e) with (Z.of_nat s) by lia. done.
  - assert (pm = 9007199254740992%positive) as -> by lia.
    exists 4503599627370496%positive, (d + e - 53 + 1).
    unfold shr_fexp. cbn [Zdigits2].
    change (Z.pos (digits2_pos 9007199254740992)) with 54.
    replace (54 + (d + e - 53)) with (53 + (d + e - 53 + 1)) by lia.
    rewrite (fexp_53 (d + e - 53 + 1)) by lia.
    replace (d + e - 53 + 1 - (d + e - 53)) with 1 by lia.
    cbn [shr shr_record_of_loc shr_m SpecFloat.iter_pos shr_1].
    replace (d + e - 53 + 1 <=? 1024 - 53) with true
      by (symmetry; apply Z.leb_le; lia).
    split; [done|]. split; [lia|].
    replace (d + e - 53 + 1 - e) with (Z.succ (Z.of_nat s)) by lia.
    rewrite Z.pow_succ_r by lia. fold P.
    change (Z.pos 9007199254740992) with (2 * Z.pos 4503599627370496) in Hnear.
    lia.
Qed.

(** A positive integer below [2 ^ 53], scaled by a power of two, is a
    double with a mantissa of 53 bits. *)
Lemma binary_normalize_exact (p : positive) (e0 : Z) :
  let n := Z.pos (digits2_pos p) in
  Z.pos p < 2 ^ 53 -> -1074 <= n - 53 + e0 <= 971 ->
  1 <= n <= 53
  /\ exists q,
       binary_normalize 53 1024 (Z.pos p) e0 false
       = S754_finite false q (n - 53 + e0)
       /\ Z.pos (digits2_pos q) = 53
       /\ Z.pos q = Z.pos p * 2 ^ (53 - n).
Proof.
  intros n Hp He. pose proof (digits2_pos_bound p) as [Hlo _]. fold n in Hlo.
  assert (1 <= n <= 53) as Hn.
  { split; [unfold n; lia|].
    destruct (decide (n <= 53)) as [|Hgt]; [done|]. exfalso.
    assert (2 ^ 53 <= 2 ^ (n - 1)) by (apply Z.pow_le_mono_r; lia). lia. }
  split; [done|].
  set (d := Z.to_nat (53 - n)).
  exists (Nat.iter d xO p).
  assert (Z.pos (digits2_pos (Nat.iter d xO p)) = 53) as Hd
    by (rewrite digits2_pos_shifted; fold n; lia).
  split; [|split; [done|]].
  - unfold binary_normalize, binary_round.
    assert (shl_align p e0 (fexp 53 1024 (Z.pos (digits2_pos p) + e0))
            = (Nat.iter d xO p, n - 53 + e0)) as ->.
    { unfold shl_align, fexp, emin. fold n.
      replace (Z.max (n + e0 - 53) (3 - 1024 - 53)) with (n - 53 + e0) by lia.
      replace (n - 53 + e0 - e0) with (n - 53) by lia.
      destruct (decide (n = 53)) as [E|E].
      - assert (d = 0%nat) as -> by lia. rewrite E. cbn. f_equal; lia.
      - assert (n - 53 = Z.neg (Pos.of_nat d)) as -> by lia.
        rewrite Pos2Nat.inj_iter, Nat2Pos.id by lia. reflexivity. }
    by rewrite binary_round_aux_exact by (done || lia).
  - rewrite shifted_value. f_equal. f_equal. lia.
Qed.

(** A double in [[0, 1)] times the double of a positive integer [N],
    truncated, is an index below [N]. *)
Lemma mul_trunc_below (mr mn : positive) (er en N : Z) :
  Z.pos (digits2_pos mr) = 53 -> Z.pos (digits2_pos mn) = 53 ->
  -106 <= er <= -53 -> -52 <= en <= 0 -> Z.pos mn = N * 2 ^ (- en) ->
  exists j,
    PyFloat.trunc (PyFloat.mul (S754_finite false mr er)
                               (S754_finite false mn en)) = Ok j
    /\ 0 <= j < N.
Proof.
  intros Hdr Hdn Her Hen EN.
  pose proof (digits2_pos_bound mr) as Hmr. rewrite Hdr in Hmr.
  pose proof (digits2_pos_bound mn) as Hmn. rewrite Hdn in Hmn.
  pose proof (digits2_pos_bound (mr * mn)) as HX.
  set (d := Z.pos (digits2_pos (mr * mn))) in *.
  rewrite Pos2Z.inj_mul in HX.
  assert (105 <= d <= 106) as Hd.
  { change (53 - 1) with 52 in *.
    assert (2 ^ 104 <= Z.pos mr * Z.pos mn < 2 ^ 106) as HX'.
    { change (2 ^ 104) with (2 ^ 52 * 2 ^ 52).
      change (2 ^ 106) with (2 ^ 53 * 2 ^ 53). nia. }
    split.
    - destruct (decide (105 <= d)) as [|Hn]; [done|]. exfalso.
      assert (2 ^ d <= 2 ^ 104) by (apply Z.pow_le_mono_r; lia). lia.
    - destruct (decide (d <= 106)) as [|Hn]; [done|]. exfalso.
      assert (2 ^ 106 <= 2 ^ (d - 1)) by (apply Z.pow_le_mono_r; lia). lia. }
  destruct (binary_round_aux_near (mr * mn) (er + en))
    as (m' & e' & E & He' & Hnear); fold d; [lia|lia|lia|].
  fold d in Hnear. rewrite Pos2Z.inj_mul in Hnear.
  unfold PyFloat.mul, SFmul, PyFloat.prec, PyFloat.emax. cbn [xorb].
  rewrite E. unfold PyFloat.trunc, PyFloat.numerator, PyFloat.shift.
  cbn [cond_Zopp].
  eexists; split; [reflexivity|].
  assert (0 < N) as HN.
  { assert (0 < 2 ^ (- en)) by (apply Z.pow_pos_nonneg; lia). nia. }
  (* the rounded product is below N *)
  assert (2 ^ (d - 53) < 2 * Z.pos mn) as Hulp.
  { assert (2 ^ (d - 1) = 2 ^ (d - 53) * 2 ^ 52) as Ed
      by (rewrite <- Z.pow_add_r by lia; f_equal; lia).
    rewrite Ed in HX.
    assert (0 < 2 ^ (d - 53)) by (apply Z.pow_pos_nonneg; lia).
    change (53 - 1) with 52 in *.
    generalize dependent (2 ^ (d - 53)). intros U. intros.
    change (2 ^ 53) with (2 * 2 ^ 52) in *. nia. }
  assert (Z.pos mr + 1 <= 2 ^ (- er)) as Hone.
  { assert (2 ^ 53 <= 2 ^ (- er)) by (apply Z.pow_le_mono_r; lia). lia. }
  assert (Z.pos m' * 2 ^ (e' - (er + en)) < N * 2 ^ (- (er + en))) as Hlt.
  { replace (- (er + en)) with (- en + - er) by lia.
    rewrite Z.pow_add_r by lia. rewrite Z.mul_assoc, <- EN.
    generalize dependent (2 ^ (- er)). intros R. intros.
    generalize dependent (2 ^ (d - 53)). intros U. intros. nia. }
  destruct (decide (e' <= 0)) as [Hneg|Hpos].
  - replace (Z.max e' 0) with 0 by lia. replace (Z.max (- e') 0) with (- e') by lia.
    rewrite Z.pow_0_r, Z.mul_1_r.
    assert (0 < 2 ^ (- e')) as HP by (apply Z.pow_pos_nonneg; lia).
    rewrite Z.quot_div_nonneg by lia.
    split; [apply Z.div_pos; lia|].
    apply Z.div_lt_upper_bound; [done|].
    replace (- (er + en)) with (- e' + (e' - (er + en))) in Hlt by lia.
    rewrite Z.pow_add_r in Hlt by lia.
    assert (0 < 2 ^ (e' - (er + en))) by (apply Z.pow_pos_nonneg; lia).
    generalize dependent (2 ^ (e' - (er + en))). intros Q. intros.
    generalize dependent (2 ^ (- e')). intros P'. intros. nia.
  - replace (Z.max e' 0) with e' by lia. replace (Z.max (- e') 0) with 0 by lia.
    rewrite Z.pow_0_r, Z.quot_1_r.
    assert (0 < 2 ^ e') by (apply Z.pow_pos_nonneg; lia).
    split; [lia|].
    replace (e' - (er + en)) with (e' + - (er + en)) in Hlt by lia.
    rewrite Z.pow_add_r in Hlt by lia.
    assert (0 < 2 ^ (- (er + en))) by (apply Z.pow_pos_nonneg; lia).
    generalize dependent (2 ^ (- (er + en))). intros Q. intros.
    generalize dependent (2 ^ e'). intros P'. intros. nia.
Qed.

(** *** The shuffle returns *)

Lemma genrand_uint32_range (s : MT19937.state) :
  0 <= (MT19937.genrand_uint32 s).1 < 2 ^ 32.
Proof. unfold MT19937.genrand_uint32. cbn [fst]. apply Z.mod_pos_bound. lia. Qed.

(** [random()] is [k / 2 ^ 53] for an integer [0 <= k < 2 ^ 53]. *)
Lemma random_unit (rng : MT19937.state) :
  exists k, 0 <= k < 2 ^ 53
            /\ (MT19937.random rng).1 = binary_normalize 53 1024 k (-53) false.
Proof.
  unfold MT19937.random.
  pose proof (genrand_uint32_range rng) as Hx.
  destruct (MT19937.genrand_uint32 rng) as [x s1]. cbn [fst] in Hx.
  pose proof (genrand_uint32_range s1) as Hy.
  destruct (MT19937.genrand_uint32 s1) as [y s2]. cbn [fst] in Hy.
  cbn [fst]. eexists. split; [|reflexivity].
  rewrite !Z.shiftr_div_pow2 by lia.
  assert (0 <= x / 2 ^ 5 < 2 ^ 27) as Ha.
  { split; [apply Z.div_pos; lia|]. apply Z.div_lt_upper_bound; lia. }
  assert (0 <= y / 2 ^ 6 < 2 ^ 26) as Hb.
  { split; [apply Z.div_pos; lia|]. apply Z.div_lt_upper_bound; lia. }
  lia.
Qed.

(** [int(random() * n)] is an index below [n]. *)
Lemma random_index (rng : MT19937.state) (n : Z) :
  0 < n < 2 ^ 53 ->
  exists p j, PyFloat.mul_int (MT19937.random rng).1 n = Ok p
              /\ PyFloat.trunc p = Ok j /\ 0 <= j < n.
Proof.
  intros Hn. destruct (random_unit rng) as (k & Hk & ->).
  destruct n as [|pn|pn]; [lia| |lia].
  destruct (binary_normalize_exact pn 0) as [Hdn (mn & En & Hmn & Vn)];
    [lia| |].
  { pose proof (digits2_pos_bound pn) as [Hlo _].
    destruct (decide (Z.pos (digits2_pos pn) <= 53)) as [|Hgt]; [lia|].
    exfalso.
    assert (2 ^ 53 <= 2 ^ (Z.pos (digits2_pos pn) - 1))
      by (apply Z.pow_le_mono_r; lia).
    lia. }
  unfold PyFloat.mul_int, PyFloat.of_int, PyFloat.prec, PyFloat.emax.
  rewrite En. cbn [mbind result_bind].
  destruct k as [|pk|pk]; [| |lia].
  - eexists. exists 0. split; [reflexivity|]. split; [reflexivity|lia].
  - destruct (binary_normalize_exact pk (-53)) as [Hdk (mr & Er & Hmr & Vr)];
      [lia| |].
    { pose proof (digits2_pos_bound pk) as [Hlo _].
      destruct (decide (Z.pos (digits2_pos pk) <= 53)) as [|Hgt]; [lia|].
      exfalso.
      assert (2 ^ 53 <= 2 ^ (Z.pos (digits2_pos pk) - 1))
        by (apply Z.pow_le_mono_r; lia).
      lia. }
    rewrite Er.
    destruct (mul_trunc_below mr mn (Z.pos (digits2_pos pk) - 53 + -53)
                (Z.pos (digits2_pos pn) - 53 + 0) (Z.pos pn))
      as (j & Ej & Hj); [done|done|lia|lia| |].
    { rewrite Vn. f_equal. f_equal. lia. }
    eexists. exists j. split; [reflexivity|]. by split.
Qed.

Lemma swap_Ok (x : list Z) (i j : nat) :
  (i < length x)%nat -> (j < length x)%nat ->
  exists y, swap x i j = Ok y /\ length y = length x.
Proof.
  intros Hi Hj. unfold swap.
  destruct (lookup_lt_is_Some_2 x i Hi) as [xi ->].
  destruct (lookup_lt_is_Some_2 x j Hj) as [xj ->].
  eexists. split; [reflexivity|]. by rewrite !length_insert.
Qed.

(** The shuffle of an array of fewer than [2 ^ 53] elements returns. *)
Lemma shuffle_from_Ok (i : nat) : forall x rng,
  (i < length x)%nat -> Z.of_nat (length x) < 2 ^ 53 ->
  exists y, shuffle_from i x rng = Ok y.
Proof.
  induction i as [|i IH]; intros x rng Hi Hlen; cbn [shuffle_from].
  - by eexists.
  - destruct (MT19937.random rng) as [r rng'] eqn:Er.
    destruct (random_index rng (Z.of_nat (S i) + 1)) as (p & j & Ep & Ej & Hj);
      [lia|].
    rewrite Er in Ep. cbn [fst] in Ep. rewrite Ep. cbn [mbind result_bind].
    rewrite Ej. cbn [mbind result_bind].
    destruct (swap_Ok x (S i) (Z.to_nat j)) as (x' & -> & Hx'); [lia|lia|].
    cbn [mbind result_bind]. apply IH; lia.
Qed.

Lemma shuffle_Ok (x : list Z) (rng : MT19937.state) :
  Z.of_nat (length x) < 2 ^ 53 -> exists y, shuffle x rng = Ok y.
Proof.
  intros Hlen. unfold shuffle. destruct x as [|a x]; [by eexists|].
  apply shuffle_from_Ok; [simpl; lia|done].
Qed.

Lemma length_arange (a b : Z) : length (arange a b) = Z.to_nat (b - a).
Proof. unfold arange. apply length_seqZ. Qed.

(** *** Construction *)

#[local] Opaque MT19937.seed0.

Lemma init_self_join_raises m series tmb :
  let num_series_subseq := shape (atleast_2d series) 1 - m + 1 in
  num_series_subseq <= 0 ->
  (num_series_subseq < 0 \/ tmb <> Some (-1)) ->
  __init__ m series None tmb = Raise RuntimeError.
Proof.
  intros ns Hns Hcase. unfold __init__.
  destruct (negb (ndim (atleast_2d series) =? 2)); [done|].
  destruct (negb (shape (atleast_2d series) 0 =? shape (atleast_2d series) 0));
    [done|].
  fold ns.
  assert (Hb : negb ((-1 <=? match tmb with Some b => b | None => m / 2 end)
                     && (match tmb with Some b => b | None => m / 2 end <? ns))
               = true).
  { apply negb_true_iff, andb_false_iff.
    rewrite Z.leb_gt, Z.ltb_ge.
    destruct tmb as [b|].
    - destruct Hcase as [?|Hne]; [lia|].
      destruct (decide (b = -1)) as [->|]; [done | lia].
    - assert (0 <= shape (atleast_2d series) 1) by (unfold shape; lia).
      destruct Hcase as [?|_]; [lia|].
      assert (1 <= m) by (unfold ns in *; lia).
      assert (0 <= m / 2) by (apply Z.div_pos; lia).
      lia. }
  rewrite Hb. reflexivity.
Qed.

(** With a query, the constructor runs the rank and dimension tests and
    nothing else. *)
Lemma init_two_series m series query tmb :
  shape (atleast_2d series) 1 - m + 1 + (shape (atleast_2d query) 1 - m + 1) - 1
    < 2 ^ 53 ->
  if (ndim (atleast_2d series) =? 2) && (ndim (atleast_2d query) =? 2)
     && (shape (atleast_2d series) 0 =? shape (atleast_2d query) 0)
  then exists c, __init__ m series (Some query) tmb = Ok c
                 /\ num_series_subseq c = shape (atleast_2d series) 1 - m + 1
                 /\ num_query_subseq c = shape (atleast_2d query) 1 - m + 1
  else __init__ m series (Some query) tmb = Raise RuntimeError.
Proof.
  intros Hsize. unfold __init__.
  destruct (ndim (atleast_2d series) =? 2); [|done].
  destruct (ndim (atleast_2d query) =? 2); [|done].
  destruct (shape (atleast_2d series) 0 =? shape (atleast_2d query) 0); [|done].
  cbn [andb negb mbind result_bind].
  destruct (shuffle_Ok
              (arange (- (shape (atleast_2d query) 1 - m + 1) + 1)
                      (shape (atleast_2d series) 1 - m + 1)) MT19937.seed0)
    as [order ->]; [rewrite length_arange; lia|].
  cbn [mbind result_bind]. by eexists.
Qed.

(** Without a query, construction succeeds exactly when the buffer lies
    in [range(-1, num_series_subseq)]. *)
Lemma init_self_join m series tmb :
  let num_series_subseq := shape (atleast_2d series) 1 - m + 1 in
  let b := match tmb with Some b => b | None => m / 2 end in
  ndim (atleast_2d series) = 2 -> num_series_subseq - b - 1 < 2 ^ 53 ->
  if (-1 <=? b) && (b <? num_series_subseq)
  then exists c, __init__ m series None tmb = Ok c
  else __init__ m series None tmb = Raise RuntimeError.
Proof.
  intros ns b Hrank Hsize. unfold __init__. rewrite Hrank, !Z.eqb_refl.
  cbn [negb]. fold ns b.
  destruct ((-1 <=? b) && (b <? ns)); [|done].
  cbn [negb mbind result_bind].
  destruct (shuffle_Ok (arange (b + 1) ns) MT19937.seed0) as [order ->];
    [rewrite length_arange; lia|].
  cbn [mbind result_bind]. by eexists.
Qed.

(** C1 (as amended): the constructor never looks at the subsequence
    counts themselves.  In self-join mode the range test of
    [trivial_match_buffer] raises [RuntimeError] whenever
    [num_series_subseq] is negative, and also when it is zero unless the
    buffer [-1] is passed.  In two-series mode (with fewer than [2 ^ 53]
    diagonals) construction succeeds exactly when the rank and dimension
    tests pass, whatever the counts are, and raises [RuntimeError]
    otherwise. *)
Theorem init_rejects_nonpositive_count_only_in_self_join :
  (forall m series tmb,
      shape (atleast_2d series) 1 - m + 1 <= 0 ->
      (shape (atleast_2d series) 1 - m + 1 < 0 \/ tmb <> Some (-1)) ->
      __init__ m series None tmb = Raise RuntimeError)
  /\ (forall m series query tmb,
      shape (atleast_2d series) 1 - m + 1
        + (shape (atleast_2d query) 1 - m + 1) - 1 < 2 ^ 53 ->
      if (ndim (atleast_2d series) =? 2) && (ndim (atleast_2d query) =? 2)
         && (shape (atleast_2d series) 0 =? shape (atleast_2d query) 0)
      then exists c,
             __init__ m series (Some query) tmb = Ok c
             /\ num_series_subseq c = shape (atleast_2d series) 1 - m + 1
             /\ num_query_subseq c = shape (atleast_2d query) 1 - m + 1
      else __init__ m series (Some query) tmb = Raise RuntimeError).
Proof.
  split.
  - intros. by apply init_self_join_raises.
  - apply init_two_series.
Qed.

(** C1 does not hold as stated: construction succeeds with a query of
    length 2 and [m = 3] ([num_query_subseq = 0]), and in self-join mode
    with a series of length 2, [m = 3] and buffer [-1]
    ([num_series_subseq = 0]). *)
Lemma init_accepts_nonpositive_count :
  (exists c, __init__ 3 [5%nat] (Some [2%nat]) None = Ok c
             /\ num_series_subseq c = 3 /\ num_query_subseq c = 0)
  /\ (exists c, __init__ 3 [2%nat] None (Some (-1)) = Ok c
                /\ num_series_subseq c = 0 /\ num_query_subseq c = 0).
Proof.
  split; eexists; (split; [vm_compute; reflexivity | split; reflexivity]).
Qed.

(** A calculator in use keeps what the constructor fixed: only the
    registries, the column mark, the diagonal cursor and the counter
    differ from the constructed [c0]. *)
Definition configured_as (c0 c : Calculator) : Prop :=
  _self_join c = _self_join c0
  /\ num_query_subseq c = num_query_subseq c0
  /\ num_series_subseq c = num_series_subseq c0
  /\ trivial_match_buffer c = trivial_match_buffer c0
  /\ _diagonal_calc_order c = _diagonal_calc_order c0
  /\ _diagonal_values_total c = _diagonal_values_total c0.

(** *** The ratio resolver *)

(** Membership of the closed interval from 0 to 1 (which no NaN has). *)
Definition in_unit_interval (f : spec_float) : bool :=
  SFleb PyFloat.zero f && SFleb f PyFloat.one.

Lemma in_unit_interval_passes f :
  in_unit_interval f = true ->
  PyFloat.ltb f PyFloat.zero || PyFloat.ltb PyFloat.one f = false.
Proof.
  unfold in_unit_interval, PyFloat.ltb, SFleb, SFltb, PyFloat.zero, PyFloat.one.
  destruct f as [[]|[]| |[] mf ef]; try done.
  cbn [SFcompare orb andb].
  rewrite (Z.compare_antisym ef (-52)).
  destruct (ef ?= -52) eqn:E; cbn [CompOpp]; try done.
  rewrite <- (Pos.compare_cont_antisym _ _ Eq). cbn [CompOpp].
  set (c := PosDef.Pos.compare_cont Eq 4503599627370496 mf).
  change (Pos.compare_cont Eq 4503599627370496 mf) with c.
  by destruct c.
Qed.

Lemma ceil_is_ceiling p z :
  PyFloat.ceil p = Ok z ->
  (z - 1) * 2 ^ PyFloat.shift p < PyFloat.numerator p <= z * 2 ^ PyFloat.shift p.
Proof.
  assert (Hd : 0 < 2 ^ PyFloat.shift p).
  { apply Z.pow_pos_nonneg; [lia|]. destruct p; simpl; lia. }
  assert (forall y, Ok (- (- PyFloat.numerator p / 2 ^ PyFloat.shift p)) = Ok y ->
                    (y - 1) * 2 ^ PyFloat.shift p < PyFloat.numerator p
                    <= y * 2 ^ PyFloat.shift p) as Hgen.
  { intros y [= <-].
    pose proof (Z.div_mod (- PyFloat.numerator p) (2 ^ PyFloat.shift p)
                  ltac:(lia)) as Hdm.
    pose proof (Z.mod_pos_bound (- PyFloat.numerator p) (2 ^ PyFloat.shift p) Hd).
    nia. }
  destruct p; try discriminate; intros H; by apply Hgen.
Qed.

Lemma calculate_columns_bad_start start upto pp intr (s : State W) e :
  _ratio_to_int
    match start with
    | PyNone => PyInt (_last_column_calculated (self s) + 1)
    | _ => start
    end (num_series_subseq (self s)) = Raise e ->
  calculate_columns start upto pp intr s = (Raise e, s).
Proof.
  intros H. unfold calculate_columns.
  rewrite bind_unfold. cbn [get_self]. rewrite bind_unfold.
  unfold lift at 1. rewrite H. reflexivity.
Qed.

Lemma calculate_columns_bad_upto start upto pp intr (s : State W) a e :
  _ratio_to_int
    match start with
    | PyNone => PyInt (_last_column_calculated (self s) + 1)
    | _ => start
    end (num_series_subseq (self s)) = Ok a ->
  _ratio_to_int upto (num_series_subseq (self s)) = Raise e ->
  calculate_columns start upto pp intr s = (Raise e, s).
Proof.
  intros Ha H. unfold calculate_columns.
  rewrite bind_unfold. cbn [get_self]. rewrite bind_unfold.
  unfold lift at 1. rewrite Ha. rewrite bind_unfold.
  unfold lift at 1. rewrite H. reflexivity.
Qed.

Lemma calculate_diagonals_bad_partial partial pp intr (s : State W) e :
  _ratio_to_int partial (_diagonal_values_total (self s)) = Raise e ->
  calculate_diagonals partial pp intr s =
  (Raise (if Z.min (num_query_subseq (self s)) (num_series_subseq (self s)) <? 0
          then ValueError else e), s).
Proof.
  intros H. unfold calculate_diagonals.
  rewrite bind_unfold. cbn [get_self]. rewrite bind_unfold.
  unfold lift at 1, np_full.
  destruct (Z.min _ _ <? 0); [reflexivity|].
  rewrite bind_unfold. unfold lift at 1. rewrite H. reflexivity.
Qed.

(** C7: [_ratio_to_int] returns an int unchanged; for a float in [0, 1]
    it returns the ceiling of the float product with the maximum (5 for
    0.5 of 10, 4 for 0.34 of 10); a float below 0 or above 1 raises
    [ValueError] and a value of another type raises [RuntimeError]; and
    when the resolver raises inside [calculate_columns] or
    [calculate_diagonals] the call ends with the state it started from:
    nothing was asked of any generator or consumer. *)
Theorem ratio_to_int_resolves :
  (forall z maximum, _ratio_to_int (PyInt z) maximum = Ok z)
  /\ (forall f maximum fm,
         in_unit_interval f = true ->
         PyFloat.of_int maximum = Ok fm ->
         _ratio_to_int (PyFloat f) maximum = PyFloat.ceil (PyFloat.mul f fm))
  /\ (forall p z,
         PyFloat.ceil p = Ok z ->
         (z - 1) * 2 ^ PyFloat.shift p < PyFloat.numerator p
         <= z * 2 ^ PyFloat.shift p)
  /\ _ratio_to_int (PyFloat (S754_finite false 4503599627370496 (-53))) 10 = Ok 5
  /\ _ratio_to_int (PyFloat (S754_finite false 6124895493223875 (-54))) 10 = Ok 4
  /\ (forall f maximum,
         PyFloat.ltb f PyFloat.zero = true \/ PyFloat.ltb PyFloat.one f = true ->
         _ratio_to_int (PyFloat f) maximum = Raise ValueError)
  /\ (forall v maximum,
         (forall z, v <> PyInt z) -> (forall f, v <> PyFloat f) ->
         _ratio_to_int v maximum = Raise RuntimeError)
  /\ (forall start upto pp intr (s : State W) e,
         _ratio_to_int
           match start with
           | PyNone => PyInt (_last_column_calculated (self s) + 1)
           | _ => start
           end (num_series_subseq (self s)) = Raise e
         \/ _ratio_to_int upto (num_series_subseq (self s)) = Raise e ->
         exists e', calculate_columns start upto pp intr s = (Raise e', s))
  /\ (forall partial pp intr (s : State W) e,
         _ratio_to_int partial (_diagonal_values_total (self s)) = Raise e ->
         exists e', calculate_diagonals partial pp intr s = (Raise e', s)).
Proof.
  repeat split.
  - intros f maximum fm Hf Hm. unfold _ratio_to_int.
    rewrite (in_unit_interval_passes f Hf).
    unfold PyFloat.mul_int. rewrite Hm. reflexivity.
  - by apply ceil_is_ceiling.
  - by apply ceil_is_ceiling.
  - intros f maximum [H|H]; unfold _ratio_to_int; rewrite H;
      [reflexivity | by rewrite orb_true_r].
  - intros v maximum Hi Hf.
    destruct v; try reflexivity; [by destruct (Hi z) | by destruct (Hf f)].
  - intros start upto pp intr s e [H|H].
    + eexists. by apply calculate_columns_bad_start.
    + destruct (_ratio_to_int
                  match start with
                  | PyNone => PyInt (_last_column_calculated (self s) + 1)
                  | _ => start
                  end (num_series_subseq (self s))) as [a|e'] eqn:Ha.
      * eexists. by eapply calculate_columns_bad_upto.
      * eexists. by apply calculate_columns_bad_start.
  - intros partial pp intr s e H. eexists.
    by apply calculate_diagonals_bad_partial.
Qed.

(** *** The whole budget as a fraction: [ceil(1.0 * total)] *)

Lemma ratio_to_int_one (z : Z) :
  0 <= z < 2 ^ 53 -> _ratio_to_int (PyFloat PyFloat.one) z = Ok z.
Proof.
  intros Hz. destruct z as [|p|p]; [reflexivity| |lia].
  destruct (of_int_exact p) as (q & e & Ho & Hm & He & Hq); [lia|].
  unfold _ratio_to_int.
  change (PyFloat.ltb PyFloat.one PyFloat.zero || PyFloat.ltb PyFloat.one PyFloat.one)
    with false.
  cbn match. unfold PyFloat.mul_int. rewrite Ho. cbn [mbind result_bind].
  rewrite Hm. unfold PyFloat.ceil, PyFloat.numerator, PyFloat.shift.
  cbn [cond_Zopp].
  replace (Z.max e 0) with 0 by lia. replace (Z.max (- e) 0) with (- e) by lia.
  rewrite Z.pow_0_r, Z.mul_1_r, Hq.
  rewrite <- Z.mul_opp_l, Z.div_mul by (apply Z.pow_nonzero; lia).
  f_equal; lia.
Qed.

(** *** What a call can change *)

Lemma bind_inv {A B : Type} (c : M A) (k : A -> M B) s r s2 :
  (c ≫= k) s = (r, s2) ->
  (exists e, c s = (Raise e, s2) /\ r = Raise e)
  \/ (exists a s1, c s = (Ok a, s1) /\ k a s1 = (r, s2)).
Proof.
  rewrite bind_unfold. destruct (c s) as [[a|e] s1] eqn:E; intros H.
  - right. eauto.
  - left. exists e. by simplify_eq.
Qed.

(** The calculator is the same before and after. *)
Definition same_self (s s' : State W) : Prop := self s' = self s.

Lemma same_self_refl s : same_self s s.
Proof. reflexivity. Qed.

Lemma same_self_trans s1 s2 s3 :
  same_self s1 s2 -> same_self s2 s3 -> same_self s1 s3.
Proof. unfold same_self. congruence. Qed.

Lemma keeps_self_calc_column g col : keeps same_self (call_calc_column g col).
Proof.
  intros s. unfold call_calc_column. by destruct (calc_column g col (world s)).
Qed.

Lemma keeps_self_calc_diagonal g k : keeps same_self (call_calc_diagonal g k).
Proof.
  intros s. unfold call_calc_diagonal. by destruct (calc_diagonal g k (world s)).
Qed.

Lemma keeps_self_process_column o col a v :
  keeps same_self (call_process_column o col a v).
Proof.
  intros s. unfold call_process_column.
  by destruct (process_column o col v (world s)).
Qed.

Lemma keeps_self_process_diagonal o k a v :
  keeps same_self (call_process_diagonal o k a v).
Proof.
  intros s. unfold call_process_diagonal.
  by destruct (process_diagonal o k v (world s)) as [r [v' w]].
Qed.

Lemma keeps_self_new_array : keeps same_self new_array.
Proof. by intros s. Qed.

Create HintDb keeps.
#[local] Hint Resolve same_self_refl same_self_trans keeps_self_calc_column
  keeps_self_calc_diagonal keeps_self_process_column
  keeps_self_process_diagonal keeps_self_new_array : keeps.

Ltac keeps_steps :=
  repeat first
    [ solve [auto with keeps]
    | apply keeps_lift; solve [auto with keeps]
    | apply keeps_ret; solve [auto with keeps]
    | apply keeps_get_self; solve [auto with keeps]
    | apply keeps_bind; [solve [eauto with keeps] | | intros ?] ].

Lemma keeps_self_fill_columns gens ids col width buf :
  keeps same_self (fill_columns gens ids col width buf).
Proof.
  revert buf. induction ids as [|i ids IH]; intros buf; simpl; keeps_steps.
Qed.

Lemma keeps_self_deliver_column cons col width buf :
  keeps same_self (deliver_column cons col width buf).
Proof.
  induction cons as [|[o ids] cons IH]; simpl; keeps_steps.
Qed.

Lemma keeps_self_fill_diagonal gens ids k width buf :
  keeps same_self (fill_diagonal gens ids k width buf).
Proof.
  revert buf. induction ids as [|i ids IH]; intros buf; simpl; keeps_steps.
Qed.

Lemma keeps_self_deliver_diagonal sj cons k width buf :
  keeps same_self (deliver_diagonal sj cons k width buf).
Proof.
  induction cons as [|[o ids] cons IH]; simpl; keeps_steps.
  destruct sj; keeps_steps.
Qed.

(** *** The column mark *)

(** The calculator after [k] columns from [start] were completed. *)
Definition after_columns (start : Z) (k : nat) (c : Calculator) : Calculator :=
  match k with
  | O => c
  | S _ =>
      set_last_column_calculated
        (Z.max (start + Z.of_nat k - 1) (_last_column_calculated c)) c
  end.

Lemma after_columns_step start k c :
  after_columns (start + 1) k
    (set_last_column_calculated (Z.max start (_last_column_calculated c)) c)
  = after_columns start (S k) c.
Proof.
  destruct k; unfold after_columns, set_last_column_calculated; simpl.
  - f_equal; lia.
  - f_equal; lia.
Qed.

Lemma column_step_self gens needed col buf s r s' :
  column_step gens needed col buf s = (r, s') ->
  self s' =
  match r with
  | Ok _ => set_last_column_calculated
              (Z.max col (_last_column_calculated (self s))) (self s)
  | Raise _ => self s
  end.
Proof.
  unfold column_step. rewrite bind_unfold. cbn [get_self].
  intros H.
  apply bind_inv in H as [(e & H & ->)|(d & s1 & H1 & H)].
  { pose proof (keeps_self_fill_columns gens needed col
                  (Z.to_nat (num_query_subseq (self s))) buf s) as K.
    rewrite H in K. exact K. }
  pose proof (keeps_self_fill_columns gens needed col
                (Z.to_nat (num_query_subseq (self s))) buf s) as K1.
  rewrite H1 in K1. unfold same_self in K1. simpl in K1.
  apply bind_inv in H as [(e & H & ->)|([] & s2 & H2 & H)].
  { pose proof (keeps_self_deliver_column (_consumers (self s)) col
                  (Z.to_nat (num_query_subseq (self s)))
                  (mask_trivial_matches (self s) col d) s1) as K.
    rewrite H in K. unfold same_self in K. simpl in K. congruence. }
  pose proof (keeps_self_deliver_column (_consumers (self s)) col
                (Z.to_nat (num_query_subseq (self s)))
                (mask_trivial_matches (self s) col d) s1) as K2.
  rewrite H2 in K2. unfold same_self in K2. simpl in K2.
  rewrite bind_unfold in H. unfold modify_self in H. simpl in H.
  injection H as <- <-. simpl. congruence.
Qed.

(** A loop of [fuel] passes completes some number [k] of columns; if it
    raises, the failing column [current_column + k] is below [upto]. *)
Lemma columns_loop_self fuel gens needed cur upto intr p buf s r s' :
  columns_loop fuel gens needed cur upto intr p buf s = (r, s') ->
  exists k : nat,
    (k <= fuel)%nat /\ self s' = after_columns cur k (self s)
    /\ (forall e, r = Raise e -> cur + Z.of_nat k < upto)
    /\ (forall d, r = Ok d -> (forall q, intr q = false) ->
        (Z.to_nat (upto - cur) <= fuel)%nat -> k = Z.to_nat (upto - cur)).
Proof.
  revert cur p buf s. induction fuel as [|fuel IH]; intros cur p buf s; simpl.
  - intros [= <- <-]. exists 0%nat.
    split; [lia|]. split; [done|]. split; [done|]. intros; lia.
  - destruct ((cur <? upto) && negb (intr p)) eqn:G.
    + apply andb_true_iff in G as [G1 G2]. apply Z.ltb_lt in G1.
      intros H. apply bind_inv in H as [(e & H & ->)|(d & s1 & H1 & H)].
      * apply column_step_self in H. exists 0%nat.
        split; [lia|]. split; [done|]. split; [intros; lia|done].
      * apply column_step_self in H1.
        apply IH in H as (k & Hk & Hs & Hr & Ho).
        exists (S k). split; [lia|]. split; [|split].
        -- rewrite Hs, H1. apply after_columns_step.
        -- intros e He. specialize (Hr e He). lia.
        -- intros d' Hd Hi Hf. rewrite (Ho d' Hd Hi); lia.
    + intros [= <- <-]. exists 0%nat.
      split; [lia|]. split; [done|]. split; [done|].
      intros d _ Hi _. rewrite Hi in G. simpl in G.
      rewrite andb_true_r in G. apply Z.ltb_ge in G. lia.
Qed.

(** The start and end columns of a call, and its buffer. *)
Definition column_range (start upto : pyval) (c : Calculator)
  : result (Z * Z * matrix) :=
  a ← _ratio_to_int
        match start with
        | PyNone => PyInt (_last_column_calculated c + 1)
        | _ => start
        end (num_series_subseq c);
  b ← _ratio_to_int upto (num_series_subseq c);
  d ← np_full (length (_generators c)) (num_query_subseq c) PyFloat.nan;
  Ok (a, b, d).

Lemma column_range_Ok start upto c a b d :
  column_range start upto c = Ok (a, b, d) ->
  _ratio_to_int
    match start with
    | PyNone => PyInt (_last_column_calculated c + 1)
    | _ => start
    end (num_series_subseq c) = Ok a
  /\ _ratio_to_int upto (num_series_subseq c) = Ok b
  /\ np_full (length (_generators c)) (num_query_subseq c) PyFloat.nan = Ok d.
Proof.
  unfold column_range. intros H.
  set (st := match start with
             | PyNone => PyInt (_last_column_calculated c + 1)
             | _ => start
             end) in *.
  destruct (_ratio_to_int st _) as [a'|]; cbn [mbind result_bind] in H; [|done].
  destruct (_ratio_to_int upto _) as [b'|]; cbn [mbind result_bind] in H; [|done].
  destruct (np_full _ _ _) as [d'|]; cbn [mbind result_bind] in H; [|done].
  by injection H as -> -> ->.
Qed.

Lemma calculate_columns_unfold start upto pp intr s :
  calculate_columns start upto pp intr s =
  match column_range start upto (self s) with
  | Ok (a, b, d) =>
      match columns_loop (Z.to_nat (b - a)) (generators (self s))
              (generators_needed_ids (self s)) a b intr 0 d s with
      | (Ok _, s') => (Ok (), s')
      | (Raise e, s') => (Raise e, s')
      end
  | Raise e => (Raise e, s)
  end.
Proof.
  unfold calculate_columns, column_range.
  rewrite bind_unfold. cbn [get_self]. rewrite bind_unfold. unfold lift at 1.
  destruct (_ratio_to_int _ _) as [a|e]; [|reflexivity].
  rewrite bind_unfold. unfold lift at 1.
  destruct (_ratio_to_int upto _) as [b|e]; [|reflexivity].
  rewrite bind_unfold. unfold lift at 1.
  destruct (np_full _ _ _) as [d|e]; [|reflexivity].
  rewrite bind_unfold. reflexivity.
Qed.

Lemma calculate_columns_self start upto pp intr s r s' :
  calculate_columns start upto pp intr s = (r, s') ->
  match column_range start upto (self s) with
  | Raise e => r = Raise e /\ s' = s
  | Ok (a, b, _) =>
      exists k : nat,
        self s' = after_columns a k (self s)
        /\ (forall e, r = Raise e -> a + Z.of_nat k < b)
        /\ (r = Ok () -> (forall q, intr q = false) -> k = Z.to_nat (b - a))
  end.
Proof.
  rewrite calculate_columns_unfold.
  destruct (column_range start upto (self s)) as [[[a b] d]|e];
    [|by intros [= <- <-]].
  destruct (columns_loop _ _ _ _ _ _ _ _ _) as [r0 s0] eqn:E.
  apply columns_loop_self in E as (k & Hk & Hs & Hr & Ho).
  intros H. exists k. destruct r0 as [d'|e]; injection H as <- <-.
  - split; [done|]. split; [done|]. intros _ Hi. by eapply Ho.
  - split; [done|]. split; [|done]. intros e' [= <-]. by apply (Hr e).
Qed.

(** C10: the high-water mark never decreases, whatever the arguments of
    the call and however the call ends; after a call that ran columns
    [a] to [b - 1] to the end the mark is the larger of [b - 1] and the
    old mark; and a call without [start] is the call with
    [start = mark + 1]. *)
Theorem last_column_calculated_monotone :
  (forall start upto pp intr (s : State W),
      _last_column_calculated (self s) <=
      _last_column_calculated (self (calculate_columns start upto pp intr s).2))
  /\ (forall a b pp intr (s s' : State W),
      calculate_columns (PyInt a) (PyInt b) pp intr s = (Ok (), s') ->
      (forall q, intr q = false) ->
      _last_column_calculated (self s') =
      if a <? b then Z.max (b - 1) (_last_column_calculated (self s))
      else _last_column_calculated (self s))
  /\ (forall upto pp intr (s : State W),
      calculate_columns PyNone upto pp intr s =
      calculate_columns (PyInt (_last_column_calculated (self s) + 1))
        upto pp intr s).
Proof.
  split; [|split].
  - intros start upto pp intr s.
    destruct (calculate_columns start upto pp intr s) as [r s'] eqn:E.
    apply calculate_columns_self in E. simpl.
    destruct (column_range start upto (self s)) as [[[a b] d]|e].
    + destruct E as (k & -> & _). destruct k; simpl; lia.
    + destruct E as [_ ->]. lia.
  - intros a b pp intr s s' E Hi.
    apply calculate_columns_self in E.
    unfold column_range in E. cbn [_ratio_to_int mbind result_bind] in E.
    destruct (np_full _ _ _) as [d|e]; [|by destruct E].
    destruct E as (k & -> & _ & Hk). rewrite (Hk eq_refl Hi).
    destruct (a <? b) eqn:G.
    + apply Z.ltb_lt in G. destruct (Z.to_nat (b - a)) eqn:Ek; [lia|].
      simpl. f_equal. lia.
    + apply Z.ltb_ge in G. by replace (Z.to_nat (b - a)) with 0%nat by lia.
  - reflexivity.
Qed.

(** *** The calls made *)

(** The calls added to the trace all satisfy [P]. *)
Definition emits (P : event -> Prop) (s s' : State W) : Prop :=
  exists evs, trace s' = trace s ++ evs /\ Forall P evs.

Lemma emits_refl P s : emits P s s.
Proof. exists []. by rewrite app_nil_r. Qed.

Lemma emits_trans P s1 s2 s3 : emits P s1 s2 -> emits P s2 s3 -> emits P s1 s3.
Proof.
  intros (e1 & H1 & F1) (e2 & H2 & F2). exists (e1 ++ e2).
  split; [by rewrite H2, H1, app_assoc | by apply Forall_app].
Qed.

Lemma emits_calc_column P g col :
  P (CalcColumn g col) -> keeps (emits P) (call_calc_column g col).
Proof.
  intros HP s. unfold call_calc_column.
  destruct (calc_column g col (world s)). exists [CalcColumn g col]. by auto.
Qed.

Lemma emits_calc_diagonal P g k :
  P (CalcDiagonal g k) -> keeps (emits P) (call_calc_diagonal g k).
Proof.
  intros HP s. unfold call_calc_diagonal.
  destruct (calc_diagonal g k (world s)). exists [CalcDiagonal g k]. by auto.
Qed.

Lemma emits_process_column P o col a v :
  P (ProcessColumn o col a v) -> keeps (emits P) (call_process_column o col a v).
Proof.
  intros HP s. unfold call_process_column.
  destruct (process_column o col v (world s)).
  exists [ProcessColumn o col a v]. by auto.
Qed.

Lemma emits_process_diagonal P o k a v :
  P (ProcessDiagonal o k a v) ->
  keeps (emits P) (call_process_diagonal o k a v).
Proof.
  intros HP s. unfold call_process_diagonal.
  destruct (process_diagonal o k v (world s)) as [r [v' w]].
  exists [ProcessDiagonal o k a v]. by auto.
Qed.

Lemma emits_new_array P : keeps (emits P) new_array.
Proof. intros s. exists []. simpl. by rewrite app_nil_r. Qed.

Lemma emits_modify_self P f : keeps (emits P) (modify_self f).
Proof. intros s. exists []. simpl. by rewrite app_nil_r. Qed.

#[local] Hint Resolve emits_refl emits_trans emits_new_array
  emits_modify_self : keeps.

(** *** Shapes of buffers *)

Definition has_width (w : nat) (a : matrix) : Prop :=
  Forall (fun r : row => length r = w) a.

Lemma np_full_shape rows cols v a :
  np_full rows cols v = Ok a ->
  length a = rows /\ has_width (Z.to_nat cols) a.
Proof.
  unfold np_full. destruct (cols <? 0); [done|]. intros [= <-].
  split; [apply length_replicate|].
  apply Forall_replicate, length_replicate.
Qed.


Lemma broadcast_length n v r : broadcast n v = Ok r -> length r = n.
Proof.
  unfold broadcast. destruct (length v =? n)%nat eqn:E.
  - intros [= <-]. by apply Nat.eqb_eq.
  - destruct v as [|x [|? ?]]; try done. intros [= <-]. apply length_replicate.
Qed.

Lemma set_row_shape a i w v a' :
  set_row a i w v = Ok a' ->
  has_width w a -> length a' = length a /\ has_width w a'.
Proof.
  unfold set_row. intros H Hw.
  destruct (py_index (length a) i) as [k|] eqn:Ek; [|done]. simpl in H.
  destruct (a !! k) as [r|] eqn:Er; [|done].
  destruct (broadcast _ v) as [r'|] eqn:Eb; [|done]. simpl in H.
  injection H as <-. split; [apply length_insert|].
  apply Forall_insert; [done|].
  apply broadcast_length in Eb.
  assert (length r = w) as Hr.
  { eapply (proj1 (Forall_forall _ _) Hw). by eapply list_elem_of_lookup_2. }
  rewrite length_app, length_drop, Eb. lia.
Qed.

Lemma take_rows_rows a ids w v :
  take_rows a ids w = Ok v ->
  Forall (fun r : row => exists r0, r0 ∈ a /\ r = take w r0) v.
Proof.
  revert v. induction ids as [|i ids IH]; intros v; simpl.
  { by intros [= <-]. }
  destruct (py_getitem a i) as [r|] eqn:Er; [|done]. simpl.
  destruct (take_rows a ids w) as [rs|]; [|done]. simpl.
  intros [= <-]. constructor; [|by apply IH].
  exists r. split; [|done].
  unfold py_getitem in Er. destruct (py_index _ _) as [k|]; [|done].
  cbn [mbind result_bind] in Er.
  destruct (a !! k) eqn:E; [|done]. injection Er as ->.
  by eapply list_elem_of_lookup_2.
Qed.

Lemma slice_bound_nonneg len i : 0 <= i -> slice_bound len i = Nat.min len (Z.to_nat i).
Proof.
  intros Hi. unfold slice_bound.
  destruct (i <? 0) eqn:E; [apply Z.ltb_lt in E; lia|]. lia.
Qed.

Lemma fill_slice_length lo hi v r : length (fill_slice lo hi v r) = length r.
Proof. unfold fill_slice. apply length_imap. Qed.

Lemma fill_slice_inside lo hi v (r : row) (i : nat) :
  0 <= lo -> lo <= Z.of_nat i < hi -> (i < length r)%nat ->
  fill_slice lo hi v r !! i = Some v.
Proof.
  intros Hlo Hi Hlen. unfold fill_slice.
  rewrite list_lookup_imap.
  destruct (lookup_lt_is_Some_2 r i Hlen) as [x ->]. simpl.
  rewrite !slice_bound_nonneg by lia.
  replace (_ <=? i)%nat with true by (symmetry; apply Nat.leb_le; lia).
  replace (i <? _)%nat with true by (symmetry; apply Nat.ltb_lt; lia).
  done.
Qed.

(** *** Columns: what is delivered *)

Definition is_calc_column (col : Z) (ev : event) : Prop :=
  match ev with
  | CalcColumn _ c => c = col
  | _ => False
  end.

(** A delivery of column [col] whose rows come from the buffer [buf]. *)
Definition is_column_delivery (col : Z) (w : nat) (buf : matrix) (ev : event)
  : Prop :=
  match ev with
  | ProcessColumn _ c _ v =>
      c = col /\ Forall (fun r : row => exists r0, r0 ∈ buf /\ r = take w r0) v
  | _ => False
  end.

Lemma fill_columns_emits gens ids col w buf :
  keeps (emits (is_calc_column col)) (fill_columns gens ids col w buf).
Proof.
  revert buf. induction ids as [|i ids IH]; intros buf; simpl; keeps_steps.
  by apply emits_calc_column.
Qed.

Lemma fill_columns_shape gens ids col w buf s d s' :
  fill_columns gens ids col w buf s = (Ok d, s') ->
  has_width w buf -> length d = length buf /\ has_width w d.
Proof.
  revert buf s. induction ids as [|i ids IH]; intros buf s; simpl.
  { by intros [= <- <-]. }
  intros H Hw.
  apply bind_Ok_inv in H as (g & s1 & _ & H).
  apply bind_Ok_inv in H as (v & s2 & _ & H).
  apply bind_Ok_inv in H as (d1 & s3 & H1 & H).
  unfold lift in H1. injection H1 as H1 <-.
  apply set_row_shape in H1 as [Hl Hw1]; [|done].
  apply IH in H as [Hl2 Hw2]; [|done]. split; [congruence|done].
Qed.

Lemma deliver_column_emits cons col w buf :
  keeps (emits (is_column_delivery col w buf)) (deliver_column cons col w buf).
Proof.
  induction cons as [|[o ids] cons IH]; simpl; [keeps_steps|].
  intros s. rewrite bind_unfold. unfold lift at 1.
  destruct (take_rows buf ids w) as [v|e] eqn:Ev; [|apply emits_refl].
  revert s. change (keeps (emits (is_column_delivery col w buf))
    (new_array ≫= fun array =>
       call_process_column o col array v ≫= fun _ =>
         deliver_column cons col w buf)).
  keeps_steps. apply emits_process_column. split; [done|].
  by eapply take_rows_rows.
Qed.

(** The masked window of column [col] holds infinity in every row. *)
Definition masked (nq b col : Z) (v : matrix) : Prop :=
  forall (r : row) (i : Z),
    r ∈ v -> Z.max 0 (col - b) <= i < col + b + 1 -> 0 <= i < nq ->
    r !! Z.to_nat i = Some PyFloat.inf.

Lemma mask_trivial_matches_width c col w buf :
  has_width w buf -> has_width w (mask_trivial_matches c col buf).
Proof.
  unfold mask_trivial_matches, has_width. intros H.
  destruct (0 <=? trivial_match_buffer c); [|done].
  apply Forall_fmap. eapply Forall_impl; [exact H|].
  intros r Hr. simpl. by rewrite fill_slice_length.
Qed.

Lemma mask_trivial_matches_masked c col buf :
  0 <= trivial_match_buffer c ->
  has_width (Z.to_nat (num_query_subseq c)) buf ->
  masked (num_query_subseq c) (trivial_match_buffer c) col
    (mask_trivial_matches c col buf).
Proof.
  intros Hb Hw r i Hr Hi Hq. unfold mask_trivial_matches in Hr.
  replace (0 <=? trivial_match_buffer c) with true in Hr
    by (symmetry; by apply Z.leb_le).
  apply list_elem_of_fmap in Hr as (r0 & -> & Hr0).
  apply fill_slice_inside; [lia|lia|].
  rewrite (proj1 (Forall_forall _ _) Hw r0 Hr0). lia.
Qed.

Lemma emits_impl (P Q : event -> Prop) s s' :
  (forall ev, P ev -> Q ev) -> emits P s s' -> emits Q s s'.
Proof.
  intros HPQ (evs & H & F). exists evs. split; [done|].
  eapply Forall_impl; [exact F | exact HPQ].
Qed.

(** Every call made in a run of columns: generators are asked for a
    column, consumers receive rows of the stated width, masked when the
    buffer is not negative. *)
Definition column_event (nq b : Z) (ev : event) : Prop :=
  match ev with
  | CalcColumn _ _ => True
  | ProcessColumn _ c _ v =>
      has_width (Z.to_nat nq) v /\ (0 <= b -> masked nq b c v)
  | _ => False
  end.

Lemma column_step_emits gens needed col buf s r s' :
  column_step gens needed col buf s = (r, s') ->
  has_width (Z.to_nat (num_query_subseq (self s))) buf ->
  emits (column_event (num_query_subseq (self s)) (trivial_match_buffer (self s)))
    s s'
  /\ (forall d, r = Ok d ->
      length d = length buf
      /\ has_width (Z.to_nat (num_query_subseq (self s))) d).
Proof.
  set (nq := num_query_subseq (self s)). set (b := trivial_match_buffer (self s)).
  unfold column_step. rewrite bind_unfold. cbn [get_self]. fold nq.
  intros H Hw.
  pose proof (fill_columns_emits gens needed col (Z.to_nat nq) buf s) as E1.
  apply (emits_impl _ (column_event nq b)) in E1;
    [|by intros [] ?].
  apply bind_inv in H as [(e & H & ->)|(d & s1 & H1 & H)].
  { rewrite H in E1. by split. }
  rewrite H1 in E1. simpl in E1.
  apply fill_columns_shape in H1 as [Hl1 Hw1]; [|done].
  pose proof (mask_trivial_matches_width (self s) col _ _ Hw1) as Hw2.
  pose proof (deliver_column_emits (_consumers (self s)) col (Z.to_nat nq)
                (mask_trivial_matches (self s) col d) s1) as E2.
  apply (emits_impl _ (column_event nq b)) in E2.
  2:{ intros [] Hev; try done. destruct Hev as [-> Hrows].
      assert (forall x : row, x ∈ values ->
                x ∈ mask_trivial_matches (self s) col d) as Hin.
      { intros x Hx.
        destruct (proj1 (Forall_forall _ _) Hrows x Hx) as (r0 & Hr0 & ->).
        rewrite take_ge; [done|].
        rewrite (proj1 (Forall_forall _ _) Hw2 r0 Hr0). lia. }
      split.
      - apply Forall_forall. intros x Hx.
        exact (proj1 (Forall_forall _ _) Hw2 x (Hin x Hx)).
      - intros Hb x i Hx.
        exact (mask_trivial_matches_masked (self s) col d Hb Hw1 x i (Hin x Hx)). }
  apply bind_inv in H as [(e & H & ->)|([] & s2 & H2 & H)].
  { rewrite H in E2. split; [by eapply emits_trans|done]. }
  rewrite H2 in E2. simpl in E2.
  rewrite bind_unfold in H. unfold modify_self in H. simpl in H.
  injection H as <- <-. split.
  - eapply emits_trans; [exact E1|].
    destruct E2 as (evs & Ht & F). exists evs. by split.
  - intros d' [= <-]. split; [|done].
    unfold mask_trivial_matches. destruct (0 <=? _); [|done].
    by rewrite length_fmap.
Qed.


Lemma columns_loop_emits fuel gens needed cur upto intr p buf s r s' nq b :
  columns_loop fuel gens needed cur upto intr p buf s = (r, s') ->
  num_query_subseq (self s) = nq -> trivial_match_buffer (self s) = b ->
  has_width (Z.to_nat nq) buf ->
  emits (column_event nq b) s s'.
Proof.
  revert cur p buf s. induction fuel as [|fuel IH]; intros cur p buf s; simpl.
  { intros [= <- <-] _ _ _. apply emits_refl. }
  destruct ((cur <? upto) && negb (intr p)).
  2:{ intros [= <- <-] _ _ _. apply emits_refl. }
  intros H Hq Hb Hw.
  apply bind_inv in H as [(e & H & ->)|(d & s1 & H1 & H)].
  - apply column_step_emits in H as [E _]; [|by rewrite Hq].
    by rewrite Hq, Hb in E.
  - pose proof (column_step_self _ _ _ _ _ _ _ H1) as Hs. simpl in Hs.
    apply column_step_emits in H1 as [E Hd]; [|by rewrite Hq].
    rewrite Hq, Hb in E. destruct (Hd d eq_refl) as [_ Hwd]. rewrite Hq in Hwd.
    eapply emits_trans; [exact E|].
    eapply IH; [exact H| | |done]; by rewrite Hs.
Qed.

Lemma calculate_columns_emits start upto pp intr s :
  emits (column_event (num_query_subseq (self s)) (trivial_match_buffer (self s)))
    s (calculate_columns start upto pp intr s).2.
Proof.
  rewrite calculate_columns_unfold.
  destruct (column_range start upto (self s)) as [[[a b] d]|e] eqn:Er;
    [|apply emits_refl].
  destruct (columns_loop _ _ _ _ _ _ _ _ _) as [r0 s0] eqn:E.
  assert (emits (column_event (num_query_subseq (self s))
                   (trivial_match_buffer (self s))) s s0) as HE.
  { eapply columns_loop_emits; [exact E|done|done|].
    apply column_range_Ok in Er as (_ & _ & En).
    by apply np_full_shape in En as [_ ?]. }
  by destruct r0.
Qed.

(** C3: when [trivial_match_buffer] is [b >= 0], every array handed to
    [process_column] for a column [c] holds positive infinity at every
    valid position from [max(0, c - b)] to [c + b] in every row; a
    calculator constructed with a query has the buffer [-1], and its
    masking step changes no buffer. *)
Theorem trivial_matches_masked_before_delivery :
  (forall start upto pp intr (s : State W),
      0 <= trivial_match_buffer (self s) ->
      exists evs,
        trace (calculate_columns start upto pp intr s).2 = trace s ++ evs
        /\ forall consumer c array v (r : row) (i : Z),
             ProcessColumn consumer c array v ∈ evs -> r ∈ v ->
             Z.max 0 (c - trivial_match_buffer (self s)) <= i
               < c + trivial_match_buffer (self s) + 1 ->
             0 <= i < num_query_subseq (self s) ->
             r !! Z.to_nat i = Some PyFloat.inf)
  /\ (forall m series query tmb c0 c,
      __init__ m series (Some query) tmb = Ok c0 ->
      configured_as c0 c ->
      trivial_match_buffer c = -1
      /\ forall col buf, mask_trivial_matches c col buf = buf).
Proof.
  split.
  - intros start upto pp intr s Hb.
    destruct (calculate_columns_emits start upto pp intr s) as (evs & Ht & F).
    exists evs. split; [done|].
    intros o c a v r i Hev Hr Hi Hq.
    pose proof (proj1 (Forall_forall _ _) F _ Hev) as [_ Hm].
    by apply (Hm Hb r i).
  - intros m series query tmb c0 c H (_ & _ & _ & Hc & _).
    assert (trivial_match_buffer c = -1) as Hb.
    { rewrite Hc. unfold __init__ in H.
      destruct (negb (ndim (atleast_2d series) =? 2)); [done|].
      destruct (negb (ndim (atleast_2d query) =? 2)); [done|].
      destruct (negb (_ =? _)); [done|].
      cbn [mbind result_bind negb] in H.
      destruct (shuffle _ _); [|done]. by injection H as <-. }
    split; [done|]. intros col buf. unfold mask_trivial_matches. by rewrite Hb.
Qed.

(** *** Columns: the buffer carries nothing from one column to the next *)











(** *** Columns: splitting a range *)

(** The interrupt flag of a call that is never interrupted. *)
Definition no_interrupt : nat -> bool := fun _ => false.


(** *** Columns: the order of deliveries *)

(** The columns handed to the consumer [o], in the order of the calls. *)
Definition columns_delivered_to (o : obj) (evs : list event) : list Z :=
  omap (fun ev => match ev with
                  | ProcessColumn o' c _ _ =>
                      if decide (o' = o) then Some c else None
                  | _ => None
                  end) evs.











(** *** Diagonals: the calls of one diagonal *)

Definition is_calc_diagonal (d : Z) (ev : event) : Prop :=
  match ev with
  | CalcDiagonal _ k => k = d
  | _ => False
  end.

(** The deliveries of diagonal [d], consumer by consumer in registration
    order.  In self-join mode the delivery of [d] is followed at once by
    the delivery of [-d] with the same array [a]; [v'] is what the array
    holds when the first call has returned. *)
Fixpoint diagonal_deliveries (sj : bool) (d : Z) (cons : list (obj * list Z))
    (evs : list event) : Prop :=
  match cons with
  | [] => evs = []
  | (o, _) :: cons' =>
      exists a v rest,
        (if sj
         then exists v' w,
             evs = ProcessDiagonal o d a v :: ProcessDiagonal o (- d) a v' :: rest
             /\ v' = (process_diagonal o d v w).2.1
         else evs = ProcessDiagonal o d a v :: rest)
        /\ diagonal_deliveries sj d cons' rest
  end.

(** All calls of one diagonal: the generators, then the deliveries. *)
Definition diagonal_unit (sj : bool) (cons : list (obj * list Z)) (d : Z)
    (evs : list event) : Prop :=
  exists calcs dels,
    evs = calcs ++ dels /\ Forall (is_calc_diagonal d) calcs
    /\ diagonal_deliveries sj d cons dels.

(** The calls of a run over the diagonals [ds], in this order. *)
Fixpoint diagonal_run (sj : bool) (cons : list (obj * list Z)) (ds : list Z)
    (evs : list event) : Prop :=
  match ds with
  | [] => evs = []
  | d :: ds' =>
      exists e1 e2,
        evs = e1 ++ e2 /\ diagonal_unit sj cons d e1
        /\ diagonal_run sj cons ds' e2
  end.

Lemma call_process_diagonal_trace o k a v s r s' :
  call_process_diagonal o k a v s = (r, s') ->
  trace s' = trace s ++ [ProcessDiagonal o k a v]
  /\ forall v', r = Ok v' -> v' = (process_diagonal o k v (world s)).2.1.
Proof.
  unfold call_process_diagonal.
  destruct (process_diagonal o k v (world s)) as [[[]|e] [v1 w]];
    intros [= <- <-]; split; try done.
  by intros v' [= <-].
Qed.

Lemma fill_diagonal_emits gens ids d w buf :
  keeps (emits (is_calc_diagonal d)) (fill_diagonal gens ids d w buf).
Proof.
  revert buf. induction ids as [|i ids IH]; intros buf; simpl; keeps_steps.
  by apply emits_calc_diagonal.
Qed.

Lemma deliver_diagonal_deliveries sj cons d w buf s s' :
  deliver_diagonal sj cons d w buf s = (Ok (), s') ->
  exists evs, trace s' = trace s ++ evs /\ diagonal_deliveries sj d cons evs.
Proof.
  revert s. induction cons as [|[o ids] cons IH]; intros s; simpl.
  { intros [= <-]. exists []. by rewrite app_nil_r. }
  intros H.
  apply bind_Ok_inv in H as (v & s1 & H1 & H).
  unfold lift in H1. injection H1 as _ <-.
  apply bind_Ok_inv in H as (a & s2 & H2 & H).
  unfold new_array in H2. injection H2 as <- <-.
  apply bind_Ok_inv in H as (v1 & s3 & H3 & H).
  apply call_process_diagonal_trace in H3 as [T3 V3]. simpl in T3, V3.
  apply bind_Ok_inv in H as (v2 & s4 & H4 & H).
  apply IH in H as (rest & Tr & Dr).
  destruct sj.
  - apply call_process_diagonal_trace in H4 as [T4 _].
    exists (ProcessDiagonal o d (next_array s) v
            :: ProcessDiagonal o (- d) (next_array s) v1 :: rest).
    split; [rewrite Tr, T4, T3; by rewrite <- !app_assoc|].
    exists (next_array s), v, rest. split; [|done].
    exists v1, (world s). split; [done|]. by apply V3.
  - injection H4 as _ <-.
    exists (ProcessDiagonal o d (next_array s) v :: rest).
    split; [rewrite Tr, T3; by rewrite <- !app_assoc|].
    by exists (next_array s), v, rest.
Qed.
(** *** Diagonals: the cursor and the counter *)

Definition total_length (nq ns : Z) (ds : list Z) : Z :=
  foldr (fun d acc => diag_length nq ns d + acc) 0 ds.

(** The calculator when one more diagonal, [d], has been completed. *)
Definition advance_diagonal (d : Z) (c : Calculator) : Calculator :=
  set_diagonal_progress
    (_diagonal_calc_list_next_index c + 1)
    (_diagonal_values_calculated c
     + diag_length (num_query_subseq c) (num_series_subseq c) d) c.

(** The diagonals that the next [k] passes visit. *)
Definition next_diagonals (k : nat) (c : Calculator) : list Z :=
  take k (drop (Z.to_nat (_diagonal_calc_list_next_index c))
            (_diagonal_calc_order c)).

(** The calculator when [k] more diagonals have been completed. *)
Definition after_diagonals (k : nat) (c : Calculator) : Calculator :=
  set_diagonal_progress
    (_diagonal_calc_list_next_index c + Z.of_nat k)
    (_diagonal_values_calculated c
     + total_length (num_query_subseq c) (num_series_subseq c)
         (next_diagonals k c)) c.

Lemma py_getitem_nonneg {A : Type} (l : list A) (i : Z) (x : A) :
  0 <= i -> py_getitem l i = Ok x -> l !! Z.to_nat i = Some x.
Proof.
  intros Hi. unfold py_getitem, py_index.
  destruct ((0 <=? i) && (i <? Z.of_nat (length l))); cbn [mbind result_bind].
  - by destruct (l !! Z.to_nat i); intros [= <-].
  - replace (i <? 0) with false by (symmetry; apply Z.ltb_ge; lia).
    by rewrite andb_false_r.
Qed.

Lemma after_diagonals_0 c :
  0 <= _diagonal_calc_list_next_index c -> after_diagonals 0 c = c.
Proof.
  intros _. destruct c. unfold after_diagonals, next_diagonals, total_length.
  rewrite take_0. unfold set_diagonal_progress. simpl. f_equal; lia.
Qed.

Lemma after_diagonals_S k c d :
  0 <= _diagonal_calc_list_next_index c ->
  _diagonal_calc_order c !! Z.to_nat (_diagonal_calc_list_next_index c) = Some d ->
  after_diagonals k (advance_diagonal d c) = after_diagonals (S k) c
  /\ next_diagonals (S k) c = d :: next_diagonals k (advance_diagonal d c).
Proof.
  intros Hi Hd.
  assert (next_diagonals (S k) c = d :: next_diagonals k (advance_diagonal d c))
    as Hn.
  { unfold next_diagonals. rewrite (drop_S _ _ _ Hd). simpl.
    by replace (Z.to_nat (_diagonal_calc_list_next_index c + 1))
      with (S (Z.to_nat (_diagonal_calc_list_next_index c))) by lia. }
  split; [|done].
  unfold after_diagonals. rewrite Hn.
  unfold advance_diagonal, set_diagonal_progress; simpl. f_equal; lia.
Qed.

Lemma diagonal_step_spec gens needed maxlen vn pp buf s r s' :
  diagonal_step gens needed maxlen vn pp buf s = (r, s') ->
  0 <= _diagonal_calc_list_next_index (self s) ->
  match r with
  | Ok _ =>
      exists d,
        _diagonal_calc_order (self s)
          !! Z.to_nat (_diagonal_calc_list_next_index (self s)) = Some d
        /\ self s' = advance_diagonal d (self s)
        /\ exists evs,
             trace s' = trace s ++ evs
             /\ diagonal_unit (_self_join (self s)) (_consumers (self s)) d evs
  | Raise e =>
      self s' = self s
      \/ (pp = true /\ e = ZeroDivisionError
          /\ exists d,
               _diagonal_calc_order (self s)
                 !! Z.to_nat (_diagonal_calc_list_next_index (self s)) = Some d
               /\ self s' = advance_diagonal d (self s))
  end.
Proof.
  unfold diagonal_step. rewrite bind_unfold. cbn [get_self].
  rewrite bind_unfold. unfold lift at 1.
  destruct (py_getitem _ _) as [d|e] eqn:Ed; [|intros [= <- <-] _; by left].
  intros H Hi. apply (py_getitem_nonneg _ _ _ Hi) in Ed.
  set (w := slice_bound (Z.to_nat maxlen)
              (diag_length (num_query_subseq (self s))
                 (num_series_subseq (self s)) d)) in *.
  pose proof (keeps_self_fill_diagonal gens needed d w buf s) as K1.
  pose proof (fill_diagonal_emits gens needed d w buf s) as (e1 & T1 & F1).
  apply bind_inv in H as [(e & H & ->)|(d1 & s1 & H1 & H)].
  { rewrite H in K1. by left. }
  rewrite H1 in K1, T1. unfold same_self in K1. simpl in K1, T1.
  pose proof (keeps_self_deliver_diagonal (_self_join (self s))
                (_consumers (self s)) d w d1 s1) as K2.
  apply bind_inv in H as [(e & H & ->)|([] & s2 & H2 & H)].
  { rewrite H in K2. unfold same_self in K2. simpl in K2. left. congruence. }
  rewrite H2 in K2. unfold same_self in K2. simpl in K2.
  apply deliver_diagonal_deliveries in H2 as (e2 & T2 & D2).
  rewrite bind_unfold in H. unfold modify_self in H. simpl in H.
  rewrite bind_unfold in H. cbn [get_self set_self self] in H.
  rewrite bind_unfold in H. unfold lift at 1 in H.
  rewrite K2, K1 in H.
  change (set_diagonal_progress _ _ (self s))
    with (advance_diagonal d (self s)) in H.
  destruct (report_progress pp vn (advance_diagonal d (self s))) as [[]|e] eqn:Ep.
  - injection H as <- <-. exists d. split; [done|]. split; [done|].
    exists (e1 ++ e2). simpl. split; [by rewrite T2, T1, app_assoc|].
    by exists e1, e2.
  - injection H as <- <-. right.
    unfold report_progress in Ep. destruct pp; [|done].
    destruct (_ || _); [|done]. injection Ep as <-.
    split; [done|]. split; [done|]. by exists d.
Qed.
(** The counter when [k] more diagonals have been completed. *)
Definition calculated_after (k : nat) (c : Calculator) : Z :=
  _diagonal_values_calculated (after_diagonals k c).

Lemma calculated_after_0 c :
  0 <= _diagonal_calc_list_next_index c ->
  calculated_after 0 c = _diagonal_values_calculated c.
Proof. intros Hi. unfold calculated_after. by rewrite after_diagonals_0. Qed.

Lemma calculated_after_S k c d :
  0 <= _diagonal_calc_list_next_index c ->
  _diagonal_calc_order c !! Z.to_nat (_diagonal_calc_list_next_index c) = Some d ->
  calculated_after (S k) c = calculated_after k (advance_diagonal d c).
Proof.
  intros Hi Hd. unfold calculated_after.
  by destruct (after_diagonals_S k c d Hi Hd) as [-> _].
Qed.

#[local] Arguments calculated_after : simpl never.
#[local] Arguments after_diagonals : simpl never.
#[local] Arguments next_diagonals : simpl never.
#[local] Arguments advance_diagonal : simpl never.

Lemma diagonals_loop_spec fuel gens needed maxlen vn pp intr :
  forall p buf s r s',
  diagonals_loop fuel gens needed maxlen vn pp intr p buf s = (r, s') ->
  0 <= _diagonal_calc_list_next_index (self s) ->
  exists k : nat,
    (k <= fuel)%nat
    /\ (k = 0%nat
        \/ (Z.to_nat (_diagonal_calc_list_next_index (self s)) + k
            <= length (_diagonal_calc_order (self s)))%nat)
    /\ (forall j, (j < k)%nat -> calculated_after j (self s) < vn)
    /\ match r with
       | Ok _ =>
           self s' = after_diagonals k (self s)
           /\ (exists evs,
                 trace s' = trace s ++ evs
                 /\ diagonal_run (_self_join (self s)) (_consumers (self s))
                      (next_diagonals k (self s)) evs)
           /\ ((forall q, intr q = false) ->
               (length (_diagonal_calc_order (self s))
                - Z.to_nat (_diagonal_calc_list_next_index (self s)) < fuel)%nat ->
               vn <= _diagonal_values_calculated (self s'))
       | Raise e =>
           calculated_after k (self s) < vn
           /\ (self s' = after_diagonals k (self s)
               \/ (pp = true /\ e = ZeroDivisionError
                   /\ self s' = after_diagonals (S k) (self s)))
       end.
Proof.
  induction fuel as [|fuel IH]; intros p buf s r s'; simpl.
  { intros [= <- <-] Hi. exists 0%nat.
    split; [lia|]. split; [by left|]. split; [intros; lia|].
    rewrite (after_diagonals_0 _ Hi). split; [done|]. split; [|intros; lia].
    exists []. by rewrite app_nil_r. }
  rewrite bind_unfold. cbn [get_self].
  destruct (_diagonal_values_calculated (self s) <? vn) eqn:G1.
  2:{ simpl. intros [= <- <-] Hi. exists 0%nat.
      split; [lia|]. split; [by left|]. split; [intros; lia|].
      rewrite (after_diagonals_0 _ Hi). split; [done|].
      split; [exists []; by rewrite app_nil_r|].
      intros _ _. by apply Z.ltb_ge. }
  apply Z.ltb_lt in G1.
  destruct (negb (intr p)) eqn:G2; simpl.
  2:{ intros [= <- <-] Hi. exists 0%nat.
      split; [lia|]. split; [by left|]. split; [intros; lia|].
      rewrite (after_diagonals_0 _ Hi). split; [done|].
      split; [exists []; by rewrite app_nil_r|].
      intros Hq _. rewrite Hq in G2. done. }
  intros H Hi.
  apply bind_inv in H as [(e & H & ->)|(d1 & s1 & H1 & H)].
  - apply diagonal_step_spec in H; [|done].
    exists 0%nat. split; [lia|]. split; [by left|]. split; [intros; lia|].
    rewrite (after_diagonals_0 _ Hi), (calculated_after_0 _ Hi). split; [done|].
    destruct H as [H|(-> & -> & d & Hd & Hs)]; [by left|right].
    split; [done|]. split; [done|].
    destruct (after_diagonals_S 0 (self s) d Hi Hd) as [<- _].
    rewrite after_diagonals_0; [done|].
    unfold advance_diagonal. simpl. lia.
  - apply diagonal_step_spec in H1 as (d & Hd & Hs & e1 & T1 & U1); [|done].
    assert (0 <= _diagonal_calc_list_next_index (self s1)) as Hi1
      by (rewrite Hs; unfold advance_diagonal; simpl; lia).
    apply IH in H as (k & Hk & Hlen & Hlt & Hr); [|done].
    pose proof (fun j => proj1 (after_diagonals_S j (self s) d Hi Hd)) as HA.
    pose proof (proj2 (after_diagonals_S k (self s) d Hi Hd)) as HN.
    rewrite Hs in Hlen, Hlt, Hr.
    exists (S k). split; [lia|].
    split.
    { right. pose proof (lookup_lt_Some _ _ _ Hd) as Hlt'.
      destruct Hlen as [->|Hlen]; [lia|].
      unfold advance_diagonal in Hlen. simpl in Hlen. lia. }
    split.
    { intros [|j] Hj; [by rewrite calculated_after_0|].
      rewrite (calculated_after_S j _ d Hi Hd). apply Hlt. lia. }
    destruct r as [d2|e].
    + destruct Hr as (Hs' & (e2 & T2 & R2) & Hstop).
      split; [by rewrite <- HA|]. split.
      * exists (e1 ++ e2). split; [by rewrite T2, T1, app_assoc|].
        rewrite HN. simpl. by exists e1, e2.
      * intros Hq Hf. apply Hstop; [done|].
        apply lookup_lt_Some in Hd.
        unfold advance_diagonal. simpl. lia.
    + rewrite (calculated_after_S k _ d Hi Hd). rewrite <- !HA. exact Hr.
Qed.
(** The buffer and the target of a call of [calculate_diagonals]. *)
Definition diagonal_target (partial : pyval) (c : Calculator)
  : result (matrix * Z) :=
  d ← np_full (length (_generators c))
        (Z.min (num_query_subseq c) (num_series_subseq c)) PyFloat.nan;
  vn ← _ratio_to_int partial (_diagonal_values_total c);
  Ok (d, vn).

Lemma calculate_diagonals_unfold partial pp intr s :
  calculate_diagonals partial pp intr s =
  match diagonal_target partial (self s) with
  | Ok (d, vn) =>
      match diagonals_loop (diagonal_passes (self s)) (generators (self s))
              (generators_needed_ids (self s))
              (Z.min (num_query_subseq (self s)) (num_series_subseq (self s)))
              vn pp intr 0 d s with
      | (Ok _, s') => (Ok (), s')
      | (Raise e, s') => (Raise e, s')
      end
  | Raise e => (Raise e, s)
  end.
Proof.
  unfold calculate_diagonals, diagonal_target.
  rewrite bind_unfold. cbn [get_self]. rewrite bind_unfold. unfold lift at 1.
  destruct (np_full _ _ _) as [d|e]; [|reflexivity].
  rewrite bind_unfold. unfold lift at 1. cbn [mbind result_bind].
  destruct (_ratio_to_int partial _) as [vn|e]; [|reflexivity].
  rewrite bind_unfold. reflexivity.
Qed.

(** What a call of [calculate_diagonals] that returns has done: it has
    completed the next [k] diagonals of the order, for some [k]. *)
Lemma calculate_diagonals_run partial pp intr s s' :
  calculate_diagonals partial pp intr s = (Ok (), s') ->
  0 <= _diagonal_calc_list_next_index (self s) ->
  exists k evs,
    self s' = after_diagonals k (self s)
    /\ trace s' = trace s ++ evs
    /\ diagonal_run (_self_join (self s)) (_consumers (self s))
         (next_diagonals k (self s)) evs.
Proof.
  rewrite calculate_diagonals_unfold.
  destruct (diagonal_target partial (self s)) as [[d vn]|e]; [|done].
  destruct (diagonals_loop _ _ _ _ _ _ _ _ _ _) as [[d1|e] s1] eqn:L; [|done].
  intros [= <-] Hi.
  apply diagonals_loop_spec in L as (k & _ & _ & _ & Hs & (evs & T & R) & _);
    [|done].
  by exists k, evs.
Qed.

(** C5: a call of [calculate_diagonals] that returns has made exactly
    the calls of a run over the next diagonals of the order.  For each
    diagonal [d] and each consumer in turn, self-join mode hands over one
    array for [d] and then at once the same array for [-d], which holds
    what the first call left in it (nothing is computed in between);
    two-series mode hands over one array for [d] only. *)
Theorem self_join_diagonals_are_mirrored :
  (forall partial pp intr (s s' : State W),
      calculate_diagonals partial pp intr s = (Ok (), s') ->
      0 <= _diagonal_calc_list_next_index (self s) ->
      exists k evs,
        trace s' = trace s ++ evs
        /\ diagonal_run (_self_join (self s)) (_consumers (self s))
             (next_diagonals k (self s)) evs)
  /\ (forall d o ids cons evs,
      diagonal_deliveries true d ((o, ids) :: cons) evs ->
      exists a v v' rest,
        evs = ProcessDiagonal o d a v :: ProcessDiagonal o (- d) a v' :: rest
        /\ (exists w, v' = (process_diagonal o d v w).2.1)
        /\ ((forall w, (process_diagonal o d v w).2.1 = v) -> v' = v)
        /\ diagonal_deliveries true d cons rest)
  /\ (forall d o ids cons evs,
      diagonal_deliveries false d ((o, ids) :: cons) evs ->
      exists a v rest,
        evs = ProcessDiagonal o d a v :: rest
        /\ diagonal_deliveries false d cons rest).
Proof.
  split; [|split].
  - intros partial pp intr s s' H Hi.
    destruct (calculate_diagonals_run _ _ _ _ _ H Hi) as (k & evs & _ & T & R).
    by exists k, evs.
  - intros d o ids cons evs (a & v & rest & (v' & w & -> & Hv) & Hrest).
    exists a, v, v', rest. split; [done|]. split; [by exists w|].
    split; [|done]. intros Hpure. by rewrite Hv, Hpure.
  - intros d o ids cons evs (a & v & rest & -> & Hrest).
    by exists a, v, rest.
Qed.
(** *** Exceptions of generators and consumers *)







(** *** The diagonal order *)

Lemma insert_Permutation (l : list Z) (j : nat) (a xj : Z) :
  l !! j = Some xj -> xj :: <[j := a]> l ≡ₚ a :: l.
Proof.
  revert j. induction l as [|b l IH]; intros [|j]; simpl; try done.
  - intros [= ->]. apply perm_swap.
  - intros H. etrans; [apply perm_swap|].
    etrans; [apply perm_skip, (IH j H)|]. apply perm_swap.
Qed.

Lemma swap_Permutation (x : list Z) (i j : nat) (y : list Z) :
  swap x i j = Ok y -> y ≡ₚ x.
Proof.
  unfold swap.
  destruct (x !! i) as [xi|] eqn:Ei; [|done].
  destruct (x !! j) as [xj|] eqn:Ej; [|done].
  intros [= <-]. revert i j Ei Ej.
  induction x as [|a x IH]; intros [|i] [|j]; simpl; try done.
  - by intros [= ->] [= ->].
  - intros [= ->] Ej. by apply insert_Permutation.
  - intros Ei [= ->]. by apply insert_Permutation.
  - intros Ei Ej. f_equiv. by apply IH.
Qed.

Lemma shuffle_from_Permutation i : forall x rng y,
  shuffle_from i x rng = Ok y -> y ≡ₚ x.
Proof.
  induction i as [|i IH]; intros x rng y; cbn [shuffle_from].
  { by intros [= <-]. }
  destruct (MT19937.random rng) as [r rng'].
  destruct (PyFloat.mul_int r _) as [p|]; cbn [mbind result_bind]; [|done].
  destruct (PyFloat.trunc p) as [j|]; cbn [mbind result_bind]; [|done].
  destruct (swap x (S i) (Z.to_nat j)) as [x'|] eqn:Es;
    cbn [mbind result_bind]; [|done].
  intros H. rewrite (IH _ _ _ H). by eapply swap_Permutation.
Qed.

Lemma shuffle_Permutation x rng y : shuffle x rng = Ok y -> y ≡ₚ x.
Proof. apply shuffle_from_Permutation. Qed.

(** The offsets that the constructor enumerates before the shuffle. *)
Definition candidates (c : Calculator) : list Z :=
  if _self_join c
  then arange (trivial_match_buffer c + 1) (num_series_subseq c)
  else arange (- num_query_subseq c + 1) (num_series_subseq c).

(** The budget as the constructor computes it. *)
Definition budget (c : Calculator) : Z :=
  if _self_join c
  then (num_series_subseq c - trivial_match_buffer c - 1)
       * (num_series_subseq c - trivial_match_buffer c - 1 + 1) / 2
  else num_query_subseq c * num_series_subseq c.

Lemma init_Ok m series query tmb c :
  __init__ m series query tmb = Ok c ->
  _diagonal_calc_order c ≡ₚ candidates c
  /\ _diagonal_values_total c = budget c
  /\ _self_join c = match query with Some _ => false | None => true end
  /\ num_series_subseq c = shape (atleast_2d series) 1 - m + 1
  /\ num_query_subseq c
     = shape (match query with
              | Some q => atleast_2d q
              | None => atleast_2d series
              end) 1 - m + 1
  /\ (_self_join c = true ->
      -1 <= trivial_match_buffer c < num_series_subseq c
      /\ num_query_subseq c = num_series_subseq c
      /\ trivial_match_buffer c = match tmb with Some b => b | None => m / 2 end)
  /\ (_self_join c = false -> trivial_match_buffer c = -1)
  /\ _diagonal_calc_list_next_index c = 0
  /\ _diagonal_values_calculated c = 0
  /\ _last_column_calculated c = -1
  /\ _generators c = [] /\ _consumers c = [].
Proof.
  unfold __init__.
  destruct (negb (ndim (atleast_2d series) =? 2)); [done|].
  destruct (negb (ndim _ =? 2)); [done|].
  destruct (negb (_ =? _)); [done|].
  destruct query as [q|].
  - cbn [mbind result_bind negb].
    destruct (shuffle _ _) as [order|] eqn:Es; cbn [mbind result_bind]; [|done].
    intros [= <-]. unfold candidates, budget. simpl.
    split; [by apply shuffle_Permutation in Es|]. by repeat split.
  - cbn [negb].
    destruct (negb ((-1 <=? _) && (_ <? _))) eqn:Eb; cbn [mbind result_bind];
      [done|].
    destruct (shuffle _ _) as [order|] eqn:Es; cbn [mbind result_bind]; [|done].
    intros [= <-]. unfold candidates, budget. simpl.
    split; [by apply shuffle_Permutation in Es|].
    apply negb_false_iff, andb_true_iff in Eb as [?%Z.leb_le ?%Z.ltb_lt].
    repeat split; try done; try lia.
Qed.
(** *** The diagonal-length utility counts cells *)

(** The rows [q] of a grid of [h] rows and [w] columns whose cell
    [(q, q + k)] on diagonal [k] lies inside the grid. *)
Definition rows_on_diagonal (h w k : Z) : list Z :=
  filter (fun q => 0 <= q + k < w) (seqZ 0 h).

Lemma rows_in_range_count (n : nat) (a b : Z) :
  Z.of_nat (length (filter (fun q => a <= q < b) (seqZ 0 (Z.of_nat n))))
  = Z.max 0 (Z.min (Z.of_nat n) b - Z.max 0 a).
Proof.
  induction n as [|n IH]; [simpl; lia|].
  rewrite Nat2Z.inj_succ, <- Z.add_1_r.
  rewrite seqZ_app by lia. rewrite filter_app, length_app, Nat2Z.inj_add, IH.
  change (seqZ (0 + Z.of_nat n) 1) with [0 + Z.of_nat n].
  rewrite filter_cons, filter_nil.
  destruct (decide (a <= 0 + Z.of_nat n < b)); simpl; lia.
Qed.

Lemma diag_length_counts (h w k : Z) :
  0 <= h -> 0 <= w ->
  diag_length h w k = Z.of_nat (length (rows_on_diagonal h w k)).
Proof.
  intros Hh Hw. unfold rows_on_diagonal.
  rewrite <- (Z2Nat.id h Hh) at 2.
  rewrite (list_filter_iff _ (fun q => - k <= q < w - k))
    by (intros q; lia).
  rewrite rows_in_range_count. unfold diag_length. lia.
Qed.

(** *** The budget *)

Lemma total_length_app nq ns l1 l2 :
  total_length nq ns (l1 ++ l2) = total_length nq ns l1 + total_length nq ns l2.
Proof.
  unfold total_length. induction l1 as [|d l1 IH]; simpl; [done|]. lia.
Qed.

Lemma total_length_Permutation nq ns l1 l2 :
  l1 ≡ₚ l2 -> total_length nq ns l1 = total_length nq ns l2.
Proof.
  unfold total_length. induction 1; simpl; lia.
Qed.

Lemma total_length_zero nq ns l :
  (forall d, d ∈ l -> diag_length nq ns d = 0) -> total_length nq ns l = 0.
Proof.
  unfold total_length. induction l as [|d l IH]; intros H; simpl; [done|].
  rewrite (H d) by (by left). rewrite IH; [done|].
  intros d' Hd'. apply H. by right.
Qed.

Lemma total_length_succ nq ns nq' ns' l :
  (forall d, d ∈ l -> diag_length nq' ns' d = diag_length nq ns d + 1) ->
  total_length nq' ns' l = total_length nq ns l + Z.of_nat (length l).
Proof.
  unfold total_length. induction l as [|d l IH]; intros H; [done|].
  cbn [foldr length]. rewrite (H d) by (by left).
  rewrite IH by (intros d' Hd'; apply H; by right). lia.
Qed.

(** The diagonals of a grid of [h] rows and [w] columns hold its
    [h * w] cells. *)
Lemma total_length_grid (h : nat) : forall w,
  0 <= w ->
  total_length (Z.of_nat h) w (arange (- Z.of_nat h + 1) w) = Z.of_nat h * w.
Proof.
  unfold arange. induction h as [|h IH]; intros w Hw.
  { rewrite total_length_zero; [lia|].
    intros d Hd%elem_of_seqZ. unfold diag_length. lia. }
  destruct (decide (w = 0)) as [->|Hw0].
  { rewrite total_length_zero; [lia|].
    intros d Hd%elem_of_seqZ. unfold diag_length. lia. }
  set (w0 := w - 1).
  destruct (decide (Z.of_nat h + w0 = 0)) as [Hz|Hz].
  { assert (h = 0%nat) as -> by lia. assert (w = 1) as -> by lia.
    reflexivity. }
  replace (w - (- Z.of_nat (S h) + 1)) with (1 + ((Z.of_nat h + w0 - 1) + 1))
    by lia.
  rewrite seqZ_app by lia. rewrite (seqZ_app _ (Z.of_nat h + w0 - 1) 1) by lia.
  rewrite !total_length_app.
  replace (seqZ (- Z.of_nat (S h) + 1) 1) with [- Z.of_nat h]
    by (by replace (- Z.of_nat (S h) + 1) with (- Z.of_nat h) by lia).
  replace (seqZ (- Z.of_nat (S h) + 1 + 1 + (Z.of_nat h + w0 - 1)) 1) with [w0]
    by (by replace (- Z.of_nat (S h) + 1 + 1 + (Z.of_nat h + w0 - 1))
          with w0 by lia).
  rewrite (total_length_succ (Z.of_nat h) w0 _ _
             (seqZ (- Z.of_nat (S h) + 1 + 1) (Z.of_nat h + w0 - 1))).
  2:{ intros d Hd%elem_of_seqZ. unfold diag_length. lia. }
  replace (- Z.of_nat (S h) + 1 + 1) with (- Z.of_nat h + 1) by lia.
  replace (Z.of_nat h + w0 - 1) with (w0 - (- Z.of_nat h + 1)) by lia.
  rewrite (IH w0) by lia.
  rewrite length_seqZ. unfold total_length, diag_length. simpl. lia.
Qed.

(** The diagonals above the buffer of a square grid. *)
Lemma total_length_triangle (t : nat) : forall b ns,
  -1 <= b -> ns - b - 1 = Z.of_nat t ->
  2 * total_length ns ns (arange (b + 1) ns) = Z.of_nat t * (Z.of_nat t + 1).
Proof.
  unfold arange. induction t as [|t IH]; intros b ns Hb Ht.
  { replace (ns - (b + 1)) with 0 by lia. reflexivity. }
  rewrite seqZ_cons by lia.
  replace (Z.pred (ns - (b + 1))) with (ns - (b + 1 + 1)) by lia.
  change (total_length ns ns (?d :: ?l))
    with (diag_length ns ns d + total_length ns ns l).
  replace (Z.succ (b + 1)) with (b + 1 + 1) by lia.
  specialize (IH (b + 1) ns ltac:(lia) ltac:(lia)).
  unfold diag_length. lia.
Qed.

Lemma total_length_nonneg nq ns l :
  (forall d, d ∈ l -> 0 < diag_length nq ns d) -> 0 <= total_length nq ns l.
Proof.
  unfold total_length. induction l as [|d l IH]; intros Hpos; simpl; [lia|].
  assert (0 < diag_length nq ns d) by (apply Hpos; by left).
  assert (0 <= foldr (fun d acc => diag_length nq ns d + acc) 0 l); [|lia].
  apply IH. intros x Hx. apply Hpos. by right.
Qed.

Lemma total_length_take nq ns l k :
  (forall d, d ∈ l -> 0 < diag_length nq ns d) ->
  total_length nq ns l <= total_length nq ns (take k l) -> take k l = l.
Proof.
  unfold total_length. revert k.
  induction l as [|d l IH]; intros k Hpos; [by destruct k|].
  assert (0 <= foldr (fun d acc => diag_length nq ns d + acc) 0 l) as Hnn.
  { clear IH. induction l as [|d' l IHl]; simpl; [lia|].
    assert (0 < diag_length nq ns d') by (apply Hpos; right; by left).
    assert (0 <= foldr (fun d acc => diag_length nq ns d + acc) 0 l); [|lia].
    apply IHl. intros x Hx. apply Hpos.
    apply elem_of_cons in Hx as [->|Hx]; [by left|]. right. by right. }
  destruct k as [|k]; simpl.
  - assert (0 < diag_length nq ns d) by (apply Hpos; by left). lia.
  - intros H. f_equal. apply IH; [|lia].
    intros x Hx. apply Hpos. by right.
Qed.
Lemma candidates_positive c d :
  0 < num_query_subseq c -> 0 < num_series_subseq c ->
  (_self_join c = true ->
   -1 <= trivial_match_buffer c /\ num_query_subseq c = num_series_subseq c) ->
  d ∈ candidates c ->
  0 < diag_length (num_query_subseq c) (num_series_subseq c) d.
Proof.
  intros Hq Hs Hsj. unfold candidates, arange.
  destruct (_self_join c).
  - destruct (Hsj eq_refl) as [Hb Heq]. intros Hd%elem_of_seqZ.
    unfold diag_length. lia.
  - intros Hd%elem_of_seqZ. unfold diag_length. lia.
Qed.

Lemma candidates_total c :
  0 <= num_query_subseq c -> 0 <= num_series_subseq c ->
  (_self_join c = true ->
   -1 <= trivial_match_buffer c < num_series_subseq c
   /\ num_query_subseq c = num_series_subseq c) ->
  total_length (num_query_subseq c) (num_series_subseq c) (candidates c)
  = budget c.
Proof.
  intros Hq Hs Hsj. unfold candidates, budget.
  destruct (_self_join c).
  - destruct (Hsj eq_refl) as [Hb ->].
    set (t := num_series_subseq c - trivial_match_buffer c - 1).
    pose proof (total_length_triangle (Z.to_nat t) (trivial_match_buffer c)
                  (num_series_subseq c) ltac:(lia) ltac:(lia)) as H.
    rewrite Z2Nat.id in H by lia.
    rewrite <- H. rewrite Z.mul_comm. by rewrite Z.div_mul.
  - pose proof (total_length_grid (Z.to_nat (num_query_subseq c))
                  (num_series_subseq c) Hs) as H.
    by rewrite Z2Nat.id in H by lia.
Qed.

(** C4: the budget fixed by the constructor is
    [num_query_subseq * num_series_subseq] in two-series mode and
    [t * (t + 1) / 2] with [t = num_series_subseq - trivial_match_buffer - 1]
    in self-join mode; with positive subsequence counts it is the sum of
    the lengths of the diagonals of the order; and a run with
    [partial = 1.0] from a fresh cursor that is not interrupted and
    returns has visited every diagonal of the order once and has counted
    exactly the budget, for every budget below [2 ^ 53] (up to there
    [ceil(1.0 * total)] is [total] itself in double precision). *)
Theorem diagonal_budget :
  (forall m series query tmb c,
      __init__ m series query tmb = Ok c ->
      (_self_join c = false ->
       _diagonal_values_total c = num_query_subseq c * num_series_subseq c)
      /\ (_self_join c = true ->
          _diagonal_values_total c =
          (num_series_subseq c - trivial_match_buffer c - 1)
          * (num_series_subseq c - trivial_match_buffer c - 1 + 1) / 2)
      /\ (0 < num_query_subseq c -> 0 < num_series_subseq c ->
          total_length (num_query_subseq c) (num_series_subseq c)
            (_diagonal_calc_order c) = _diagonal_values_total c))
  /\ (forall m series query tmb c0 pp (s s' : State W),
      __init__ m series query tmb = Ok c0 ->
      0 < num_query_subseq c0 -> 0 < num_series_subseq c0 ->
      configured_as c0 (self s) ->
      _diagonal_calc_list_next_index (self s) = 0 ->
      _diagonal_values_calculated (self s) = 0 ->
      _diagonal_values_total c0 < 2 ^ 53 ->
      calculate_diagonals (PyFloat PyFloat.one) pp no_interrupt s = (Ok (), s') ->
      _diagonal_values_calculated (self s') = _diagonal_values_total c0
      /\ _diagonal_calc_list_next_index (self s')
         = Z.of_nat (length (_diagonal_calc_order c0))
      /\ exists evs,
           trace s' = trace s ++ evs
           /\ diagonal_run (_self_join c0) (_consumers (self s))
                (_diagonal_calc_order c0) evs).
Proof.
  assert (forall m series query tmb c,
             __init__ m series query tmb = Ok c ->
             0 < num_query_subseq c -> 0 < num_series_subseq c ->
             total_length (num_query_subseq c) (num_series_subseq c)
               (_diagonal_calc_order c) = _diagonal_values_total c
             /\ forall d, d ∈ _diagonal_calc_order c ->
                  0 < diag_length (num_query_subseq c) (num_series_subseq c) d)
    as Hsum.
  { intros m series query tmb c H Hq Hs.
    apply init_Ok in H as (Hp & Ht & _ & _ & _ & Hsj & _).
    split.
    - rewrite (total_length_Permutation _ _ _ _ Hp), Ht.
      apply candidates_total; [lia|lia|]. intros E.
      destruct (Hsj E) as (? & ? & _). done.
    - intros d Hd. rewrite Hp in Hd.
      apply candidates_positive; [done|done| |done].
      intros E. destruct (Hsj E) as (? & ? & _). split; [lia|done]. }
  split.
  - intros m series query tmb c H.
    pose proof (init_Ok _ _ _ _ _ H) as (_ & Ht & _).
    split; [|split].
    + intros E. rewrite Ht. unfold budget. by rewrite E.
    + intros E. rewrite Ht. unfold budget. by rewrite E.
    + intros Hq Hs. by apply (Hsum m series query tmb).
  - intros m series query tmb c0 pp s s' H0 Hq Hs Hc Hi Hv Hsmall H.
    destruct (Hsum _ _ _ _ _ H0 Hq Hs) as [Htot Hpos].
    assert (_ratio_to_int (PyFloat PyFloat.one) (_diagonal_values_total c0)
            = Ok (_diagonal_values_total c0)) as Hone.
    { apply ratio_to_int_one. split; [|done].
      rewrite <- Htot. by apply total_length_nonneg. }
    destruct Hc as (Csj & Cq & Cs & Cb & Co & Ct).
    rewrite calculate_diagonals_unfold in H. unfold diagonal_target in H.
    destruct (np_full _ _ _) as [d|]; cbn [mbind result_bind] in H; [|done].
    rewrite Ct, Hone in H. cbn [mbind result_bind] in H.
    destruct (diagonals_loop _ _ _ _ _ _ _ _ _ _) as [[d1|e] s1] eqn:L; [|done].
    injection H as <-.
    apply diagonals_loop_spec in L
      as (k & _ & Hlen & _ & Hs' & (evs & T & R) & Hstop); [|lia].
    specialize (Hstop (fun _ => eq_refl)).
    unfold diagonal_passes in Hstop. rewrite Hi in Hstop.
    specialize (Hstop ltac:(lia)).
    assert (next_diagonals k (self s) = _diagonal_calc_order c0) as Hall.
    { unfold next_diagonals. rewrite Hi, Co. simpl. rewrite drop_0.
      apply (total_length_take (num_query_subseq c0) (num_series_subseq c0));
        [done|].
      rewrite Htot. rewrite Hs' in Hstop.
      unfold after_diagonals, next_diagonals in Hstop. simpl in Hstop.
      rewrite Hi, Hv, Cq, Cs, Co in Hstop. simpl in Hstop.
      rewrite drop_0 in Hstop. lia. }
    rewrite Hall, Csj in R.
    assert (k = length (_diagonal_calc_order c0)) as Hk.
    { unfold next_diagonals in Hall. rewrite Hi, Co in Hall. simpl in Hall.
      rewrite drop_0 in Hall. apply (f_equal length) in Hall.
      rewrite length_take in Hall.
      rewrite Hi, Co in Hlen. simpl in Hlen.
      destruct Hlen as [->|Hlen]; lia. }
    split; [|split].
    + rewrite Hs'. unfold after_diagonals. simpl.
      rewrite Hall, Hv, Cq, Cs, Htot. lia.
    + rewrite Hs'. unfold after_diagonals. simpl. rewrite Hi. lia.
    + by exists evs.
Qed.
(** *** The order is fixed *)







(** C9: a self-join calculator constructed with buffer [-1] on a series
    with at least one subsequence has offset 0 in its order; the pass that
    visits offset 0 hands every consumer one array for offset 0 twice in a
    row (the second time with what the first call left in it), moves the
    cursor by one and adds the length of the diagonal to the counter
    once. *)
Theorem main_diagonal_delivered_twice :
  (forall m series c,
      __init__ m series None (Some (-1)) = Ok c ->
      0 < num_series_subseq c ->
      _self_join c = true /\ 0 ∈ _diagonal_calc_order c)
  /\ (forall gens needed maxlen vn pp buf (s s' : State W) d1,
      diagonal_step gens needed maxlen vn pp buf s = (Ok d1, s') ->
      0 <= _diagonal_calc_list_next_index (self s) ->
      _diagonal_calc_order (self s)
        !! Z.to_nat (_diagonal_calc_list_next_index (self s)) = Some 0 ->
      _self_join (self s) = true ->
      _diagonal_values_calculated (self s')
      = _diagonal_values_calculated (self s)
        + diag_length (num_query_subseq (self s)) (num_series_subseq (self s)) 0
      /\ _diagonal_calc_list_next_index (self s')
         = _diagonal_calc_list_next_index (self s) + 1
      /\ exists calcs dels,
           trace s' = trace s ++ calcs ++ dels
           /\ Forall (is_calc_diagonal 0) calcs
           /\ diagonal_deliveries true 0 (_consumers (self s)) dels)
  /\ (forall o ids cons evs,
      diagonal_deliveries true 0 ((o, ids) :: cons) evs ->
      exists a v v' rest,
        evs = ProcessDiagonal o 0 a v :: ProcessDiagonal o 0 a v' :: rest
        /\ ((forall w, (process_diagonal o 0 v w).2.1 = v) -> v' = v)
        /\ diagonal_deliveries true 0 cons rest).
Proof.
  split; [|split].
  - intros m series c H Hs.
    apply init_Ok in H as (Hp & _ & Hsj & _ & _ & Hb & _).
    split; [done|]. rewrite Hp. unfold candidates. rewrite Hsj.
    destruct (Hb Hsj) as (_ & _ & ->).
    apply elem_of_seqZ. lia.
  - intros gens needed maxlen vn pp buf s s' d1 H Hi H0 Hsj.
    apply diagonal_step_spec in H as (d & Hd & Hs & evs & T & U); [|done].
    rewrite H0 in Hd. injection Hd as <-. rewrite Hsj in U.
    destruct U as (calcs & dels & -> & F & D).
    rewrite Hs. split; [done|]. split; [done|]. by exists calcs, dels.
  - intros o ids cons evs (a & v & rest & (v' & w & -> & Hv) & Hrest).
    exists a, v, v', rest. split; [done|]. split; [|done].
    intros Hpure. by rewrite Hv, Hpure.
Qed.

(** ** Further properties of the module *)


End Orchestration.

(** ** Examples *)

(** The sample calculators are what the constructor returns, with a
    generator and a consumer registered. *)
Example sample_self_join_constructed :
  exists c, __init__ 4 [10%nat] None None = Ok c
            /\ configured_as c Sample.self_join.
Proof. eexists. split; [vm_compute; reflexivity|]. by repeat split. Qed.

Example sample_two_series_constructed :
  exists c, __init__ 3 [8%nat] (Some [6%nat]) None = Ok c
            /\ configured_as c Sample.two_series.
Proof. eexists. split; [vm_compute; reflexivity|]. by repeat split. Qed.

Example sample_self_join_unbuffered_constructed :
  exists c, __init__ 4 [10%nat] None (Some (-1)) = Ok c
            /\ configured_as c Sample.self_join_unbuffered.
Proof. eexists. split; [vm_compute; reflexivity|]. by repeat split. Qed.


(** A series of length 2 cannot be joined with itself for [m = 3], but it
    is accepted as the query of a series of length 5. *)
Lemma init_rejects_nonpositive_count_witness :
  __init__ 3 [2%nat] None None = Raise RuntimeError
  /\ exists c, __init__ 3 [5%nat] (Some [2%nat]) None = Ok c
               /\ num_series_subseq c = 3 /\ num_query_subseq c = 0.
Proof.
  split.
  - apply (proj1 init_rejects_nonpositive_count_only_in_self_join).
    + vm_compute. discriminate.
    + right. discriminate.
  - apply (proj2 init_rejects_nonpositive_count_only_in_self_join
             3 [5%nat] [2%nat] None).
    vm_compute. reflexivity.
Defined.

Local Abbreviation sample_columns :=
  (calculate_columns nat Sample.calc_column Sample.process_column
     Sample.set_order).
Local Abbreviation sample_diagonals :=
  (calculate_diagonals nat Sample.calc_diagonal Sample.process_diagonal
     Sample.set_order).


(** The full column run of the self-join sample with buffer 2. *)
Lemma trivial_matches_masked_witness :
  exists evs,
    trace (sample_columns PyNone (PyFloat PyFloat.one) false no_interrupt
             (Sample.start Sample.self_join)).2 = [] ++ evs
    /\ forall consumer c array v (r : row) (i : Z),
         ProcessColumn consumer c array v ∈ evs -> r ∈ v ->
         Z.max 0 (c - 2) <= i < c + 2 + 1 -> 0 <= i < 7 ->
         r !! Z.to_nat i = Some PyFloat.inf.
Proof.
  apply (proj1 (trivial_matches_masked_before_delivery nat Sample.calc_column
                  Sample.process_column Sample.set_order)
           PyNone (PyFloat PyFloat.one) false no_interrupt
           (Sample.start Sample.self_join)).
  simpl. lia.
Defined.

(** The full diagonal run of the two-series sample counts 24 values. *)
Lemma diagonal_budget_witness :
  _diagonal_values_calculated
    (self (sample_diagonals (PyFloat PyFloat.one) false no_interrupt
             (Sample.start Sample.two_series)).2) = 24.
Proof.
  destruct sample_two_series_constructed as (c0 & H0 & Hc).
  pose proof Hc as (Csj & Cq & Cs & Cb & Co & Ct). simpl in Cq, Cs, Ct.
  rewrite Ct.
  refine (proj1 (proj2 (diagonal_budget nat Sample.calc_diagonal
                          Sample.process_diagonal Sample.set_order)
                   3 [8%nat] (Some [6%nat]) None c0 false
                   (Sample.start Sample.two_series) _ H0 _ _ Hc _ _ _ _)).
  - lia.
  - lia.
  - reflexivity.
  - reflexivity.
  - rewrite <- Ct. reflexivity.
  - vm_compute. reflexivity.
Defined.

(** The full diagonal run of the self-join sample. *)
Lemma self_join_diagonals_witness :
  exists k evs,
    trace (sample_diagonals (PyFloat PyFloat.one) false no_interrupt
             (Sample.start Sample.self_join)).2 = [] ++ evs
    /\ diagonal_run nat Sample.process_diagonal true [(20%nat, [0])]
         (next_diagonals k Sample.self_join) evs.
Proof.
  apply (proj1 (self_join_diagonals_are_mirrored nat Sample.calc_diagonal
                  Sample.process_diagonal Sample.set_order)
           (PyFloat PyFloat.one) false no_interrupt
           (Sample.start Sample.self_join)).
  - vm_compute. reflexivity.
  - simpl. lia.
Defined.


(** 0.34 of 10 resolves to the ceiling of the product of the two doubles. *)
Lemma ratio_to_int_witness :
  _ratio_to_int (PyFloat (S754_finite false 6124895493223875 (-54))) 10
  = PyFloat.ceil
      (PyFloat.mul (S754_finite false 6124895493223875 (-54))
         (S754_finite false 5629499534213120 (-49))).
Proof.
  apply (proj1 (proj2 (ratio_to_int_resolves nat Sample.calc_column
                         Sample.calc_diagonal Sample.process_column
                         Sample.process_diagonal Sample.set_order))).
  - vm_compute. reflexivity.
  - vm_compute. reflexivity.
Defined.


(** The unbuffered self-join of a series of length 10 with [m = 4]. *)
Lemma main_diagonal_witness :
  exists c, __init__ 4 [10%nat] None (Some (-1)) = Ok c
            /\ _self_join c = true /\ 0 ∈ _diagonal_calc_order c.
Proof.
  destruct sample_self_join_unbuffered_constructed as (c & H & Hc).
  exists c. split; [exact H|].
  apply (proj1 (main_diagonal_delivered_twice nat Sample.calc_diagonal
                  Sample.process_diagonal) 4 [10%nat] c H).
  destruct Hc as (_ & _ & Hs & _). simpl in Hs. lia.
Defined.

(** Columns 2 to 4 of the self-join sample, from a fresh calculator. *)
Lemma last_column_calculated_witness :
  _last_column_calculated
    (self (sample_columns (PyInt 2) (PyInt 5) false no_interrupt
             (Sample.start Sample.self_join)).2)
  = if 2 <? 5 then Z.max (5 - 1) (-1) else -1.
Proof.
  apply (proj1 (proj2 (last_column_calculated_monotone nat Sample.calc_column
                         Sample.process_column Sample.set_order))
           2 5 false no_interrupt (Sample.start Sample.self_join)).
  - vm_compute. reflexivity.
  - reflexivity.
Defined.

(** *** The scenarios of the specification, evaluated *)

(** The first double of [random.Random(0).random()] is
    0.8444218515250481, that is [7605875871743422 / 2 ^ 53]. *)
Example random_0_first :
  (MT19937.random MT19937.seed0).1 = S754_finite false 7605875871743422 (-53).
Proof. vm_compute. reflexivity. Qed.

(** [random.shuffle(np.arange(-3, 6), random.Random(0).random)] *)
Example shuffle_arange_m3_6 :
  shuffle (arange (-3) 6) MT19937.seed0 = Ok [0; -3; 1; 2; 5; -2; -1; 3; 4].
Proof. vm_compute. reflexivity. Qed.

(** [ceil(0.1 * 10)] is 1: the product of the two doubles rounds to 1.0. *)
Example ratio_one_tenth_of_10 :
  _ratio_to_int (PyFloat (S754_finite false 7205759403792794 (-56))) 10 = Ok 1.
Proof. vm_compute. reflexivity. Qed.

(** Self-join of a series of length 10 with [m = 4]: the full column run
    hands the consumer the columns 0 to 6 in order. *)
Example sample_columns_in_order :
  let s := (sample_columns PyNone (PyFloat PyFloat.one) false no_interrupt
              (Sample.start Sample.self_join)).2 in
  columns_delivered_to 20 (trace s) = [0; 1; 2; 3; 4; 5; 6]
  /\ _last_column_calculated (self s) = 6.
Proof. vm_compute. by split. Qed.

(** Column 3 of that run is masked at the positions 1 to 5. *)
Example sample_column_3 :
  let s := (sample_columns (PyInt 3) (PyInt 4) false no_interrupt
              (Sample.start Sample.self_join)).2 in
  trace s =
  [CalcColumn 10 3;
   ProcessColumn 20 3 0
     [[PyFloat.one; PyFloat.inf; PyFloat.inf; PyFloat.inf; PyFloat.inf;
       PyFloat.inf; PyFloat.one]]].
Proof. vm_compute. reflexivity. Qed.

(** The full diagonal run of the same calculator visits the offsets 4, 3,
    5 and 6, each mirrored, and counts the 10 values of the budget. *)
Example sample_diagonals_mirrored :
  let s := (sample_diagonals (PyFloat PyFloat.one) false no_interrupt
              (Sample.start Sample.self_join)).2 in
  omap (fun ev => match ev with
                  | ProcessDiagonal o d a _ => Some (o, d, a)
                  | _ => None
                  end) (trace s)
  = [(20%nat, 4, 0%nat); (20%nat, -4, 0%nat); (20%nat, 3, 1%nat);
     (20%nat, -3, 1%nat); (20%nat, 5, 2%nat); (20%nat, -5, 2%nat);
     (20%nat, 6, 3%nat); (20%nat, -6, 3%nat)]
  /\ _diagonal_values_calculated (self s) = 10.
Proof. vm_compute. by split. Qed.

(** Two series of lengths 8 and 6 with [m = 3]: half of the budget of 24
    is passed with the diagonals 0, -3, 1 and 2, of lengths 4, 1, 4 and 4. *)
Example sample_half_of_the_diagonals :
  let s := (sample_diagonals (PyFloat (S754_finite false 4503599627370496 (-53)))
              false no_interrupt (Sample.start Sample.two_series)).2 in
  omap (fun ev => match ev with
                  | ProcessDiagonal _ d _ _ => Some d
                  | _ => None
                  end) (trace s) = [0; -3; 1; 2]
  /\ _diagonal_values_calculated (self s) = 13.
Proof. vm_compute. by split. Qed.

